(** * btrx: the Bluetooth monitoring top block of gr-bluetooth

    A shallow embedding of [examples/btrx.py] (class [my_top_block]) and the
    properties of its parameter resolution, channel fan-out and decoder
    selection.

    Python floats are IEEE 754 binary64 numbers; they are modelled with the
    axiom-free [SpecFloat] operations of the standard library at precision
    53 and maximal exponent 1024.  Python integers are unbounded ([Z]). *)

From Stdlib Require Import ZArith List String Ascii Bool Lia.
From Stdlib Require Import Floats.SpecFloat.
Import ListNotations.

Local Open Scope Z_scope.

(** ** Python values and operators *)

Module Py.

(** Exceptions the constructor of the top block can leave with.  The
    payloads are the operands of the failing statement; message texts are
    not modelled. *)
Inductive exn : Type :=
| SystemExit_usage                       (* raise SystemExit, 1 *)
| SystemExit_tune                        (* "Failed to set USRP frequency" *)
| SampleRateBelowMinimum (rate min : spec_float) (* ValueError, line 78 *)
| NotImplementedError
| ZeroDivisionError
| OverflowError                          (* int(inf), float(huge long) *)
| ValueError_nan                         (* int(nan) *)
| ValueError_int16 (s : string)          (* int(s, 16) on a bad literal *)
| RuntimeError_eng (s : string).         (* eng_notation.str_to_num *)

Inductive result (A : Type) : Type :=
| Ok (a : A)
| Raise (e : exn).
Arguments Ok {A} a.
Arguments Raise {A} e.

Definition rbind {A B} (r : result A) (k : A -> result B) : result B :=
  match r with
  | Ok a => k a
  | Raise e => Raise e
  end.

Definition to_option {A} (r : result A) : option A :=
  match r with
  | Ok a => Some a
  | Raise _ => None
  end.

(** *** binary64 *)

Definition prec : Z := 53.
Definition emax : Z := 1024.

Definition float : Type := spec_float.

Definition is_float (x : float) : bool := valid_binary prec emax x.

Definition is_finite (x : float) : bool :=
  match x with
  | S754_zero _ | S754_finite _ _ _ => true
  | S754_infinity _ | S754_nan => false
  end.

Definition fdiv : float -> float -> float := SFdiv prec emax.
Definition fmul : float -> float -> float := SFmul prec emax.
Definition fadd : float -> float -> float := SFadd prec emax.
Definition flt : float -> float -> bool := SFltb.
Definition fle : float -> float -> bool := SFleb.

(** The float nearest to an integer (round to nearest, ties to even). *)
Definition of_Z (n : Z) : float := binary_normalize prec emax n 0 false.

Definition is_zero (x : float) : bool :=
  match x with
  | S754_zero _ => true
  | _ => false
  end.

(** [float(n)] as the arithmetic operators apply it to an integer operand:
    a long that rounds beyond the largest float raises [OverflowError]. *)
Definition float_of_int (n : Z) : result float :=
  let x := of_Z n in
  if is_finite x then Ok x else Raise OverflowError.

(** [a / b] on floats: division by zero raises, overflow gives an
    infinity silently. *)
Definition truediv (a b : float) : result float :=
  if is_zero b then Raise ZeroDivisionError else Ok (fdiv a b).

(** [a / n] with a float [a] and an integer [n]. *)
Definition truediv_int (a : float) (n : Z) : result float :=
  rbind (float_of_int n) (truediv a).

(** The integer part of a finite float, towards zero. *)
Definition trunc_finite (s : bool) (m : positive) (e : Z) : Z :=
  let a := match e with
           | Z0 => Zpos m
           | Zpos p => Zpos m * 2 ^ Zpos p
           | Zneg p => Zpos m / 2 ^ Zpos p
           end in
  if s then - a else a.

(** [int(x)] on a float. *)
Definition int_of_float (x : float) : result Z :=
  match x with
  | S754_zero _ => Ok 0
  | S754_finite s m e => Ok (trunc_finite s m e)
  | S754_infinity _ => Raise OverflowError
  | S754_nan => Raise ValueError_nan
  end.

(** The mathematical floor of a float, undefined on infinities and NaN.
    This is the reading of "floor" in the specification; it is written
    independently of [int_of_float]. *)
Definition floor (x : float) : option Z :=
  match x with
  | S754_zero _ => Some 0
  | S754_finite s m e =>
      Some (match e with
            | Z0 => if s then Zneg m else Zpos m
            | Zpos p => (if s then Zneg m else Zpos m) * 2 ^ Zpos p
            | Zneg p => (if s then Zneg m else Zpos m) / 2 ^ Zpos p
            end)
  | S754_infinity _ | S754_nan => None
  end.

(** The floor of the exact (rational) quotient of a finite float by a
    positive integer. *)
Definition exact_floor_div (x : float) (n : Z) : option Z :=
  match x with
  | S754_zero _ => Some 0
  | S754_finite s m e =>
      let v := if s then Zneg m else Zpos m in
      Some (match e with
            | Z0 => v / n
            | Zpos p => (v * 2 ^ Zpos p) / n
            | Zneg p => v / (n * 2 ^ Zpos p)
            end)
  | S754_infinity _ | S754_nan => None
  end.

(** [s.split(",")]: the fields between the commas, at least one. *)
Fixpoint split_comma_aux (cur : string -> string) (s : string) : list string :=
  match s with
  | EmptyString => [cur EmptyString]
  | String c rest =>
      if Ascii.eqb c ","%char
      then cur EmptyString :: split_comma_aux (fun t => t) rest
      else split_comma_aux (fun t => cur (String c t)) rest
  end.

Definition split_comma (s : string) : list string :=
  split_comma_aux (fun t => t) s.

(** The number of commas of a string, and [",".join(l)]: what
    [s.split(",")] is measured against. *)
Fixpoint count_commas (s : string) : nat :=
  match s with
  | EmptyString => O
  | String c rest =>
      if Ascii.eqb c ","%char then S (count_commas rest) else count_commas rest
  end.

Definition join_comma (l : list string) : string := String.concat "," l.

End Py.

Import Py.

(** Float literals of the source. *)
Definition f_1e6 : float := Eval vm_compute in of_Z 1000000.
Definition f_2e6 : float := Eval vm_compute in of_Z 2000000.
Definition f_64e6 : float := Eval vm_compute in of_Z 64000000.
Definition f_100e6 : float := Eval vm_compute in of_Z 100000000.
Definition f_500e3 : float := Eval vm_compute in of_Z 500000.
Definition f_1 : float := Eval vm_compute in of_Z 1.
Definition f_2 : float := Eval vm_compute in of_Z 2.
Definition f_0_32 : float := Eval vm_compute in fdiv (of_Z 32) (of_Z 100).

(** The rate [2^60] Hz, below which the float quotients of the channel
    parameters are proved not to round past an integer. *)
Definition f_2p60 : float := Eval vm_compute in of_Z (2 ^ 60).

(** ** The top block *)

Module Btrx.

(** *** Command line options, with the [dest] names of the option parser *)

Record options : Type := {
  nsamples : option float;
  rx_subdev_spec : Z * Z;
  ddc : string;
  decim : Z;
  freq : float;
  gain : option float;
  input_file : option string;
  lap : option string;
  dump : bool;
  sample_rate : option float;
  input_shorts : bool;
  packets : Z;
  uap : option string;
  usrp2 : bool
}.

(** The defaults declared with [parser.add_option]. *)
Definition default_options : options := {|
  nsamples := None;
  rx_subdev_spec := (0, 0);
  ddc := "0";
  decim := 32;
  freq := S754_zero false;
  gain := None;
  input_file := None;
  lap := None;
  dump := false;
  sample_rate := None;
  input_shorts := false;
  packets := 100;
  uap := None;
  usrp2 := false
|}.

(** *** Collaborators

    What the constructor calls and this repository does not define: the
    engineering-notation parser of gnuradio, Python's [int(s, 16)], and
    the answers of the USRP.  [None] stands for the exception the
    collaborator raises on a malformed string. *)
Record env : Type := {
  str_to_num : string -> option float;
  int16 : string -> option Z;
  side_and_name : string;
  tune : Z * Z -> float -> bool;
  gain_range : float * float
}.

(** *** Blocks of the flow graph *)

Inductive item_size : Type := sizeof_short | sizeof_gr_complex.

Inductive window : Type := WIN_HANN.

(** [gr.firdes.low_pass(gain, sampling_freq, cutoff, transition, window)];
    the taps are kept symbolic. *)
Record taps : Type := low_pass {
  lp_gain : float;
  lp_sampling_freq : float;
  lp_cutoff_freq : float;
  lp_transition_width : float;
  lp_window : window
}.

Inductive block : Type :=
| usrp_source_c (decim_rate : Z)
| file_descriptor_source (sz : item_size) (fd : Z)
| file_source (sz : item_size) (name : string)
| head (sz : item_size) (n : Z)
| interleaved_short_to_complex
| freq_xlating_fir_filter_ccf
    (decimation : Z) (t : taps) (center_freq : Z) (sampling_freq : float)
| gmsk_demod (mu : float) (samples_per_symbol : float)
| bluetooth_dump
| bluetooth_LAP (ddc_freq : Z)
| bluetooth_UAP (lap_value : Z) (npackets : Z)
| bluetooth_sniffer (lap_value uap_value : Z).

(** What the constructor does to the outside, in program order.  Blocks
    are named by the order of their creation. *)
Inductive event : Type :=
| PrintHelp
| New (id : nat) (b : block)
| SelectedSubdev (src : nat) (spec : Z * Z)
| PrintRxBoard (name : string)
| Tune (src : nat) (target : float)
| SetGain (g : float)
| Connect (ids : list nat).

Record state : Type := {
  next_id : nat;
  log : list event
}.

Definition initial : state := {| next_id := O; log := [] |}.

(** *** State and exception monad; the state reached is kept on failure *)

Definition M (A : Type) : Type := state -> state * result A.

Definition ret {A} (a : A) : M A := fun st => (st, Ok a).

Definition bind {A B} (c : M A) (k : A -> M B) : M B :=
  fun st =>
    match c st with
    | (st', Ok a) => k a st'
    | (st', Raise e) => (st', Raise e)
    end.

Definition raise {A} (e : exn) : M A := fun st => (st, Raise e).

Definition lift {A} (r : result A) : M A := fun st => (st, r).

Definition emit (ev : event) : M unit :=
  fun st => ({| next_id := next_id st; log := log st ++ [ev] |}, Ok tt).

Definition new (b : block) : M nat :=
  fun st =>
    ({| next_id := S (next_id st); log := log st ++ [New (next_id st) b] |},
     Ok (next_id st)).

Definition connect (ids : list nat) : M unit := emit (Connect ids).

Declare Scope btrx_scope.
Delimit Scope btrx_scope with btrx.
Notation "x <- c ;; k" := (bind c (fun x => k))
  (at level 61, c at next level, right associativity) : btrx_scope.
Notation "c ;;; k" := (bind c (fun _ => k))
  (at level 61, right associativity) : btrx_scope.
Local Open Scope btrx_scope.

Fixpoint for_each {A} (l : list A) (body : A -> M unit) : M unit :=
  match l with
  | [] => ret tt
  | a :: l' => body a ;;; for_each l' body
  end.

(** *** Parameter resolution (lines 59-78) *)

Definition symbol_rate : float := f_1e6.
Definition min_samples_per_symbol : Z := 2.
Definition min_sample_rate : float :=
  fmul symbol_rate (of_Z min_samples_per_symbol).

Definition adc_rate (o : options) : float :=
  if usrp2 o then f_100e6 else f_64e6.

(** [options.sample_rate] after lines 67-74. *)
Definition resolve_sample_rate (o : options) : result float :=
  match sample_rate o with
  | Some r => Ok r
  | None => truediv_int (adc_rate o) (decim o)
  end.

(** ["%d" % x] on a float: the digits of [int(x)], so it raises what
    [int(x)] raises. *)
Definition format_d (x : float) : result Z := int_of_float x.

(** Lines 77-78.  The message of the error is formatted, both numbers with
    [%d], before the error is raised. *)
Definition check_sample_rate (r : float) : result unit :=
  if flt r min_sample_rate
  then rbind (format_d r) (fun _ =>
       rbind (format_d min_sample_rate) (fun _ =>
       Raise (SampleRateBelowMinimum r min_sample_rate)))
  else Ok tt.

(** Lines 67-78: the sample rate resolved and checked.  The decimation rate
    and the samples-per-symbol value (lines 130-131) are computed later,
    when the source and the two stages are set up; see [front_end]. *)
Definition resolve_parameters (o : options) : result float :=
  rbind (resolve_sample_rate o) (fun r =>
  rbind (check_sample_rate r) (fun _ => Ok r)).

(** Lines 80-83. *)
Definition input_size (o : options) : item_size :=
  if input_shorts o then sizeof_short else sizeof_gr_complex.

(** *** Source selection (lines 86-108) *)

Definition select_source (E : env) (o : options) : M nat :=
  match input_file o with
  | None =>
      if usrp2 o then raise NotImplementedError
      else
        src <- new (usrp_source_c (decim o)) ;;
        emit (SelectedSubdev src (rx_subdev_spec o)) ;;;
        emit (PrintRxBoard (side_and_name E)) ;;;
        emit (Tune src (freq o)) ;;;
        if negb (tune E (rx_subdev_spec o) (freq o))
        then raise SystemExit_tune
        else
          let g := match gain o with
                   | None => fdiv (fadd (fst (gain_range E)) (snd (gain_range E)))
                                  (of_Z 2)
                   | Some g => g
                   end in
          emit (SetGain g) ;;;
          ret src
  | Some name =>
      if String.eqb name "-"
      then new (file_descriptor_source (input_size o) 0)
      else new (file_source (input_size o) name)
  end.

(** Stage 1 (lines 111-116). *)
Definition stage1 (o : options) (src : nat) : M nat :=
  match nsamples o with
  | None => ret src
  | Some n =>
      k <- lift (int_of_float n) ;;
      h <- new (head (input_size o) k) ;;
      connect [src; h] ;;;
      ret h
  end.

(** Stage 2 (lines 119-124). *)
Definition stage2 (o : options) (s1 : nat) : M nat :=
  if input_shorts o then
    s2c <- new interleaved_short_to_complex ;;
    connect [s1; s2c] ;;;
    ret s2c
  else ret s1.

(** *** Channel parameters (lines 127-131) *)

Definition channel_filter (r : float) : taps :=
  low_pass f_1 r f_500e3 f_500e3 WIN_HANN.

Definition decimation_rate (r : float) : result Z :=
  rbind (truediv r min_sample_rate) int_of_float.

Definition samples_per_symbol (r : float) (d : Z) : result float :=
  rbind (truediv_int r d) (fun q => truediv q symbol_rate).

(** *** Decoder selection (lines 150-164) *)

Definition parse_int16 (E : env) (s : string) : result Z :=
  match int16 E s with
  | Some n => Ok n
  | None => Raise (ValueError_int16 s)
  end.

Definition decoder (E : env) (o : options) (ddc_freq : Z) : result block :=
  if dump o then Ok bluetooth_dump
  else
    match lap o with
    | None => Ok (bluetooth_LAP ddc_freq)
    | Some l =>
        match uap o with
        | None =>
            rbind (parse_int16 E l) (fun lv =>
            Ok (bluetooth_UAP lv (packets o)))
        | Some u =>
            rbind (parse_int16 E l) (fun lv =>
            rbind (parse_int16 E u) (fun uv =>
            Ok (bluetooth_sniffer lv uv)))
        end
    end.

(** *** The per-channel loop body (lines 137-167) *)

Record context : Type := {
  ctx_sample_rate : float;
  ctx_stage2 : nat;
  ctx_filter : taps;
  ctx_decimation : Z;
  ctx_sps : float
}.

Definition parse_ddc (E : env) (ddc_option : string) : result Z :=
  match str_to_num E ddc_option with
  | Some x => int_of_float x
  | None => Raise (RuntimeError_eng ddc_option)
  end.

Definition channel (E : env) (o : options) (c : context)
    (ddc_option : string) : M unit :=
  ddc_freq <- lift (parse_ddc E ddc_option) ;;
  ddc_blk <- new (freq_xlating_fir_filter_ccf
                    (ctx_decimation c) (ctx_filter c) ddc_freq
                    (ctx_sample_rate c)) ;;
  demod <- new (gmsk_demod f_0_32 (ctx_sps c)) ;;
  dst_blk <- lift (decoder E o ddc_freq) ;;
  dst <- new dst_blk ;;
  connect [ctx_stage2 c; ddc_blk; demod; dst].

(** Everything before the loop (lines 54-131). *)
Definition front_end (E : env) (o : options) (args : list string) : M context :=
  (if negb (Nat.eqb (List.length args) 0)
   then emit PrintHelp ;;; raise SystemExit_usage
   else ret tt) ;;;
  r <- lift (resolve_parameters o) ;;
  src <- select_source E o ;;
  s1 <- stage1 o src ;;
  s2 <- stage2 o s1 ;;
  d <- lift (decimation_rate r) ;;
  sps <- lift (samples_per_symbol r d) ;;
  ret {| ctx_sample_rate := r;
         ctx_stage2 := s2;
         ctx_filter := channel_filter r;
         ctx_decimation := d;
         ctx_sps := sps |}.

(** [my_top_block.__init__]. *)
Definition init (E : env) (o : options) (args : list string) : M unit :=
  c <- front_end E o args ;;
  for_each (split_comma (ddc o)) (channel E o c).

Definition run (E : env) (o : options) (args : list string)
  : state * result unit :=
  init E o args initial.

(** *** Reading the log *)

Definition is_source (b : block) : bool :=
  match b with
  | usrp_source_c _ | file_descriptor_source _ _ | file_source _ _ => true
  | _ => false
  end.

(** The blocks created, oldest first. *)
Fixpoint created (l : list event) : list (nat * block) :=
  match l with
  | [] => []
  | New id b :: l' => (id, b) :: created l'
  | _ :: l' => created l'
  end.

(** The centre frequencies of the channel filters created, oldest first. *)
Fixpoint ddc_freqs (l : list event) : list Z :=
  match l with
  | [] => []
  | New _ (freq_xlating_fir_filter_ccf _ _ f _) :: l' => f :: ddc_freqs l'
  | _ :: l' => ddc_freqs l'
  end.

(** The parameters [(mu, samples_per_symbol)] of the demodulators created,
    oldest first. *)
Fixpoint demods (l : list event) : list (float * float) :=
  match l with
  | [] => []
  | New _ (gmsk_demod mu sps) :: l' => (mu, sps) :: demods l'
  | _ :: l' => demods l'
  end.


(** What one pass of the loop body appends to the log when it completes:
    the filter, the demodulator, the decoder, and their connection to the
    shared upstream stage. *)
Definition branch_events (c : context) (id : nat) (f : Z) (dst : block)
  : list event :=
  [ New id (freq_xlating_fir_filter_ccf
              (ctx_decimation c) (ctx_filter c) f (ctx_sample_rate c));
    New (S id) (gmsk_demod f_0_32 (ctx_sps c));
    New (S (S id)) dst;
    Connect [ctx_stage2 c; id; S id; S (S id)] ].

Fixpoint branches_events (c : context) (id : nat) (l : list (Z * block))
  : list event :=
  match l with
  | [] => []
  | (f, dst) :: l' =>
      branch_events c id f dst ++ branches_events c (3 + id) l'
  end.

(** Options that differ in the two address strings only. *)
Definition with_lap_uap (o : options) (l u : option string) : options :=
  {| nsamples := nsamples o;
     rx_subdev_spec := rx_subdev_spec o;
     ddc := ddc o;
     decim := decim o;
     freq := freq o;
     gain := gain o;
     input_file := input_file o;
     lap := l;
     dump := dump o;
     sample_rate := sample_rate o;
     input_shorts := input_shorts o;
     packets := packets o;
     uap := u;
     usrp2 := usrp2 o |}.

(** A collaborator record that differs in the hexadecimal parser only. *)
Definition with_int16 (E : env) (p : string -> option Z) : env :=
  {| str_to_num := str_to_num E;
     int16 := p;
     side_and_name := side_and_name E;
     tune := tune E;
     gain_range := gain_range E |}.

(** *** Invariants of a computation

    [respects P Q c]: whatever the start state, [c] only appends events
    satisfying [P] to the log, and only raises exceptions satisfying [Q]. *)
Definition respects {A} (P : event -> Prop) (Q : exn -> Prop) (c : M A)
  : Prop :=
  forall st st' r, c st = (st', r) ->
    (exists evs, log st' = log st ++ evs /\ Forall P evs)
    /\ (forall e, r = Raise e -> Q e).

(** Blocks that only the per-channel loop creates. *)
Definition is_channel_block (b : block) : bool :=
  match b with
  | freq_xlating_fir_filter_ccf _ _ _ _ | gmsk_demod _ _
  | bluetooth_dump | bluetooth_LAP _ | bluetooth_UAP _ _
  | bluetooth_sniffer _ _ => true
  | _ => false
  end.

(** Events of the part before the loop. *)
Definition front_event (ev : event) : Prop :=
  match ev with
  | New _ b => is_channel_block b = false
  | _ => True
  end.

(** Exceptions of the part before the loop: neither of the two string
    parsers is called there. *)
Definition front_exn (e : exn) : Prop :=
  match e with
  | RuntimeError_eng _ | ValueError_int16 _ => False
  | _ => True
  end.

(** Events of a run whose channel parameters are [c]: every channel filter
    and every demodulator is built from these parameters. *)
Definition conforms (c : context) (ev : event) : Prop :=
  match ev with
  | New _ (freq_xlating_fir_filter_ccf d t _ r) =>
      d = ctx_decimation c /\ t = ctx_filter c /\ r = ctx_sample_rate c
  | New _ (gmsk_demod mu sps) => mu = f_0_32 /\ sps = ctx_sps c
  | _ => True
  end.

(** Exceptions of the loop body: a hexadecimal parse error needs the dump
    flag unset and a LAP string. *)
Definition channel_exn (o : options) (e : exn) : Prop :=
  match e with
  | ValueError_int16 _ => dump o = false /\ lap o <> None
  | _ => True
  end.

(** Events of the USRP set-up, and the creation of a source. *)
Definition source_event (ev : event) : bool :=
  match ev with
  | New _ b => is_source b
  | SelectedSubdev _ _ | PrintRxBoard _ | Tune _ _ | SetGain _ => true
  | _ => false
  end.

(** Exceptions of the arithmetic, of the sample-rate check and of the two
    string parsers: everything but the two exits and the not-implemented
    error. *)
Definition value_exn (e : exn) : Prop :=
  match e with
  | ZeroDivisionError | OverflowError | ValueError_nan
  | SampleRateBelowMinimum _ _
  | RuntimeError_eng _ | ValueError_int16 _ => True
  | _ => False
  end.

End Btrx.

(** ** A concrete set of collaborators

    Used to run the model on examples.  The two parsers agree with the
    library ones on the fragment described; every other string is answered
    as malformed, so the examples stay inside the fragment or use strings
    that hold no digit at all. *)

Module Bench.

Import Btrx.

Definition digit (c : ascii) : option Z :=
  let n := Z.of_N (N_of_ascii c) in
  if (48 <=? n) && (n <=? 57) then Some (n - 48) else None.

Definition hex_digit (c : ascii) : option Z :=
  let n := Z.of_N (N_of_ascii c) in
  if (48 <=? n) && (n <=? 57) then Some (n - 48)
  else if (65 <=? n) && (n <=? 70) then Some (n - 55)
  else if (97 <=? n) && (n <=? 102) then Some (n - 87)
  else None.

Fixpoint number_aux (base : Z) (dig : ascii -> option Z) (acc : Z)
    (s : string) : option Z :=
  match s with
  | EmptyString => Some acc
  | String c t =>
      match dig c with
      | Some d => number_aux base dig (base * acc + d) t
      | None => None
      end
  end.

Definition number (base : Z) (dig : ascii -> option Z) (s : string)
  : option Z :=
  match s with
  | EmptyString => None
  | _ => number_aux base dig 0 s
  end.

(** [value[0:-1]] and [value[-1]]. *)
Fixpoint split_last (s : string) : option (string * ascii) :=
  match s with
  | EmptyString => None
  | String c t =>
      match split_last t with
      | None => Some (EmptyString, c)
      | Some (pre, z) => Some (String c pre, z)
      end
  end.

(** The scale of an engineering suffix. *)
Definition scale (c : ascii) : option float :=
  let pow10 k := of_Z (10 ^ k) in
  let inv10 k := fdiv (of_Z 1) (of_Z (10 ^ k)) in
  if Ascii.eqb c "T" then Some (pow10 12)
  else if Ascii.eqb c "G" then Some (pow10 9)
  else if Ascii.eqb c "M" then Some (pow10 6)
  else if Ascii.eqb c "k" then Some (pow10 3)
  else if Ascii.eqb c "m" then Some (inv10 3)
  else if Ascii.eqb c "u" then Some (inv10 6)
  else if Ascii.eqb c "n" then Some (inv10 9)
  else if Ascii.eqb c "p" then Some (inv10 12)
  else if Ascii.eqb c "f" then Some (inv10 15)
  else None.

(** [eng_notation.str_to_num] on unsigned decimal integers with an
    optional suffix. *)
Definition eng_str_to_num (s : string) : option float :=
  match split_last s with
  | None => None
  | Some (pre, c) =>
      match scale c with
      | Some sc =>
          match number 10 digit pre with
          | Some n => Some (fmul (of_Z n) sc)
          | None => None
          end
      | None =>
          match number 10 digit s with
          | Some n => Some (of_Z n)
          | None => None
          end
      end
  end.

(** [int(s, 16)] on unsigned hexadecimal digit strings, with or without
    the [0x] prefix. *)
Definition hex_int (s : string) : option Z :=
  match s with
  | String "0" (String "x" t) | String "0" (String "X" t) =>
      number 16 hex_digit t
  | _ => number 16 hex_digit s
  end.

Definition bench_env : env := {|
  str_to_num := eng_str_to_num;
  int16 := hex_int;
  side_and_name := "A: DBSRX";
  tune := fun _ _ => true;
  gain_range := (of_Z 0, of_Z 20)
|}.

(** The same collaborators with a USRP that refuses every frequency. *)
Definition untuned_env : env := {|
  str_to_num := eng_str_to_num;
  int16 := hex_int;
  side_and_name := "A: DBSRX";
  tune := fun _ _ => false;
  gain_range := (of_Z 0, of_Z 20)
|}.

(** [-i -]: samples from standard input, everything else by default. *)
Definition stdin_options : options := {|
  nsamples := None;
  rx_subdev_spec := (0, 0);
  ddc := "0";
  decim := 32;
  freq := S754_zero false;
  gain := None;
  input_file := Some "-"%string;
  lap := None;
  dump := false;
  sample_rate := None;
  input_shorts := false;
  packets := 100;
  uap := None;
  usrp2 := false
|}.

Definition with_ddc (o : options) (s : string) : options := {|
  nsamples := nsamples o;
  rx_subdev_spec := rx_subdev_spec o;
  ddc := s;
  decim := decim o;
  freq := freq o;
  gain := gain o;
  input_file := input_file o;
  lap := lap o;
  dump := dump o;
  sample_rate := sample_rate o;
  input_shorts := input_shorts o;
  packets := packets o;
  uap := uap o;
  usrp2 := usrp2 o
|}.

Definition with_sample_rate (o : options) (r : option float) : options := {|
  nsamples := nsamples o;
  rx_subdev_spec := rx_subdev_spec o;
  ddc := ddc o;
  decim := decim o;
  freq := freq o;
  gain := gain o;
  input_file := input_file o;
  lap := lap o;
  dump := dump o;
  sample_rate := r;
  input_shorts := input_shorts o;
  packets := packets o;
  uap := uap o;
  usrp2 := usrp2 o
|}.

Definition with_usrp2_decim (o : options) (u : bool) (d : Z) : options := {|
  nsamples := nsamples o;
  rx_subdev_spec := rx_subdev_spec o;
  ddc := ddc o;
  decim := d;
  freq := freq o;
  gain := gain o;
  input_file := input_file o;
  lap := lap o;
  dump := dump o;
  sample_rate := sample_rate o;
  input_shorts := input_shorts o;
  packets := packets o;
  uap := uap o;
  usrp2 := u
|}.

Definition with_dump (o : options) (b : bool) : options := {|
  nsamples := nsamples o;
  rx_subdev_spec := rx_subdev_spec o;
  ddc := ddc o;
  decim := decim o;
  freq := freq o;
  gain := gain o;
  input_file := input_file o;
  lap := lap o;
  dump := b;
  sample_rate := sample_rate o;
  input_shorts := input_shorts o;
  packets := packets o;
  uap := uap o;
  usrp2 := usrp2 o
|}.

Definition with_nsamples (o : options) (n : option float) : options := {|
  nsamples := n;
  rx_subdev_spec := rx_subdev_spec o;
  ddc := ddc o;
  decim := decim o;
  freq := freq o;
  gain := gain o;
  input_file := input_file o;
  lap := lap o;
  dump := dump o;
  sample_rate := sample_rate o;
  input_shorts := input_shorts o;
  packets := packets o;
  uap := uap o;
  usrp2 := usrp2 o
|}.

End Bench.

(** ** Facts about binary64 arithmetic *)

Module Binary64.

Lemma digits2_pos_bounds (m : positive) :
  2 ^ (Zpos (digits2_pos m) - 1) <= Zpos m < 2 ^ Zpos (digits2_pos m).
Proof.
  induction m as [m IH|m IH|]; cbn [digits2_pos].
  - rewrite Pos2Z.inj_succ.
    replace (Z.succ (Zpos (digits2_pos m)) - 1)
      with (Z.succ (Zpos (digits2_pos m) - 1)) by lia.
    rewrite !Z.pow_succ_r by lia. lia.
  - rewrite Pos2Z.inj_succ.
    replace (Z.succ (Zpos (digits2_pos m)) - 1)
      with (Z.succ (Zpos (digits2_pos m) - 1)) by lia.
    rewrite !Z.pow_succ_r by lia. lia.
  - cbn. lia.
Qed.

Lemma digits2_pos_unique (m : positive) (k : Z) :
  2 ^ (k - 1) <= Zpos m < 2 ^ k -> Zpos (digits2_pos m) = k.
Proof.
  intros [Hlo Hhi].
  destruct (digits2_pos_bounds m) as [Dlo Dhi].
  set (d := Zpos (digits2_pos m)) in *.
  assert (0 < d) by (unfold d; lia).
  destruct (Z.lt_trichotomy d k) as [Hlt|[Heq|Hgt]]; [exfalso|exact Heq|exfalso].
  - assert (2 ^ d <= 2 ^ (k - 1)) by (apply Z.pow_le_mono_r; lia). lia.
  - destruct (Z.le_gt_cases k 0) as [Hk|Hk].
    + destruct k as [|k|k]; cbn in Hhi; lia.
    + assert (2 ^ k <= 2 ^ (d - 1)) by (apply Z.pow_le_mono_r; lia). lia.
Qed.

Lemma Zdigits2_unique (q k : Z) :
  0 < q -> 2 ^ (k - 1) <= q < 2 ^ k -> Zdigits2 q = k.
Proof.
  intros Hq H. destruct q as [|p|p]; try lia.
  cbn [Zdigits2]. now apply digits2_pos_unique.
Qed.

Lemma fexp_normal (x : Z) : -1021 <= x -> fexp 53 1024 x = x - 53.
Proof. intros H. unfold fexp, emin. lia. Qed.

Lemma round_nearest_even_bounds (m : Z) (l : location) :
  m <= round_nearest_even m l <= m + 1.
Proof.
  destruct l as [|[]]; cbn [round_nearest_even]; try lia.
  destruct (Z.even m); lia.
Qed.

Lemma shr_1_half (m : Z) (r s : bool) :
  0 <= m -> shr_m (shr_1 {| shr_m := m; shr_r := r; shr_s := s |}) = m / 2.
Proof.
  intros Hm. destruct m as [|p|p]; [reflexivity| |lia].
  destruct p as [p|p|]; cbn [shr_1 shr_m].
  - rewrite (Pos2Z.inj_xI p). apply Z.div_unique with (r := 1); lia.
  - rewrite (Pos2Z.inj_xO p). apply Z.div_unique with (r := 0); lia.
  - reflexivity.
Qed.

Lemma shr_record_of_loc_m (m : Z) (l : location) :
  shr_m (shr_record_of_loc m l) = m.
Proof. destruct l as [|[]]; reflexivity. Qed.

Lemma iter_shr_1_m (p : positive) :
  forall mrs, 0 <= shr_m mrs ->
    shr_m (iter_pos shr_1 p mrs) = shr_m mrs / 2 ^ Zpos p.
Proof.
  assert (Hstep : forall mrs, 0 <= shr_m mrs ->
            shr_m (shr_1 mrs) = shr_m mrs / 2).
  { intros [m r s] H. now apply shr_1_half. }
  induction p as [p IH|p IH|]; intros mrs Hm; cbn [iter_pos].
  - assert (H1 : 0 <= shr_m (shr_1 mrs))
      by (rewrite Hstep by lia; apply Z.div_pos; lia).
    assert (H2 : 0 <= shr_m (iter_pos shr_1 p (shr_1 mrs)))
      by (rewrite IH by lia; apply Z.div_pos;
          [lia|apply Z.pow_pos_nonneg; lia]).
    rewrite IH by exact H2. rewrite IH by exact H1.
    rewrite Hstep by exact Hm.
    rewrite !Z.div_div by (try lia; apply Z.pow_pos_nonneg; lia).
    f_equal. rewrite (Pos2Z.inj_xI p).
    replace (2 * Z.pos p + 1) with (1 + Z.pos p + Z.pos p) by lia.
    rewrite !Z.pow_add_r by lia. change (2 ^ 1) with 2. lia.
  - assert (H2 : 0 <= shr_m (iter_pos shr_1 p mrs))
      by (rewrite IH by lia; apply Z.div_pos;
          [lia|apply Z.pow_pos_nonneg; lia]).
    rewrite IH by exact H2. rewrite IH by exact Hm.
    rewrite !Z.div_div by (try lia; apply Z.pow_pos_nonneg; lia).
    f_equal. rewrite (Pos2Z.inj_xO p).
    replace (2 * Z.pos p) with (Z.pos p + Z.pos p) by lia.
    rewrite !Z.pow_add_r by lia. lia.
  - rewrite Hstep by exact Hm. reflexivity.
Qed.

Lemma shr_1_round_even (m : Z) (r s : bool) :
  0 < m -> Z.even m = true ->
  let mrs := shr_1 {| shr_m := m; shr_r := r; shr_s := s |} in
  round_nearest_even (shr_m mrs) (loc_of_shr_record mrs) = m / 2.
Proof.
  intros Hm Hev. destruct m as [|p|p]; try lia.
  destruct p as [p|p|]; try discriminate.
  cbn [shr_1 shr_m loc_of_shr_record].
  assert (Hd : Z.pos p~0 / 2 = Z.pos p).
  { rewrite (Pos2Z.inj_xO p). symmetry.
    apply Z.div_unique with (r := 0); lia. }
  rewrite Hd. now destruct (r || s).
Qed.

(** Rounding an integer of [53 + k] bits at an exponent above the
    subnormal range: [k] bits are shifted out, one more when the rounding
    carries, and the result is a normal float or, past the largest
    exponent, an infinity.  Its mantissa, scaled back, is the truncated
    integer or its successor; it is the integer itself when nothing is
    shifted out of an exact one, and with at most one bit shifted out it
    exceeds the integer by at most one unit. *)
Lemma binary_round_aux_shape (s : bool) (q e : Z) (l : location) (k : Z) :
  0 <= k ->
  2 ^ (52 + k) <= q < 2 ^ (53 + k) ->
  -1074 <= e ->
  exists m' e',
    binary_round_aux 53 1024 s q e l
      = (if e' <=? 971 then S754_finite s m' e' else S754_infinity s)
    /\ 2 ^ 52 <= Zpos m' < 2 ^ 53 /\ e + k <= e' <= e + k + 1
    /\ q / 2 ^ k <= Zpos m' * 2 ^ (e' - (e + k)) <= q / 2 ^ k + 1
    /\ (l = loc_Exact -> k = 0 -> Zpos m' * 2 ^ (e' - e) = q)
    /\ (k <= 1 -> Zpos m' * 2 ^ (e' - (e + k)) * 2 ^ k <= q + 1).
Proof.
  intros Hk Hq He.
  assert (Hq0 : 0 < q).
  { assert (0 < 2 ^ (52 + k)) by (apply Z.pow_pos_nonneg; lia). lia. }
  unfold binary_round_aux, shr_fexp.
  rewrite (Zdigits2_unique q (53 + k)) by
    (try lia; replace (53 + k - 1) with (52 + k) by lia; exact Hq).
  rewrite fexp_normal by lia.
  replace (53 + k + e - 53 - e) with k by lia.
  assert (exists mrs1,
    shr (shr_record_of_loc q l) e k = (mrs1, e + k)
    /\ shr_m mrs1 = q / 2 ^ k
    /\ 2 ^ 52 <= shr_m mrs1 < 2 ^ 53
    /\ (l = loc_Exact -> k = 0 -> loc_of_shr_record mrs1 = loc_Exact)
    /\ (k = 1 -> Z.even q = true ->
        round_nearest_even (shr_m mrs1) (loc_of_shr_record mrs1) = q / 2))
    as (mrs1 & -> & Hm1 & Hb1 & Hex & Hev).
  { destruct k as [|p|p]; [| |lia].
    - exists (shr_record_of_loc q l). cbn [shr]. rewrite Z.add_0_r.
      rewrite shr_record_of_loc_m. change (2 ^ 0) with 1. rewrite Z.div_1_r.
      split; [reflexivity|]. split; [reflexivity|]. split; [exact Hq|].
      split; [now intros -> _|discriminate].
    - exists (iter_pos shr_1 p (shr_record_of_loc q l)). cbn [shr].
      split; [reflexivity|].
      rewrite iter_shr_1_m by (rewrite shr_record_of_loc_m; lia).
      rewrite shr_record_of_loc_m.
      rewrite !Z.pow_add_r in Hq by lia.
      assert (0 < 2 ^ Z.pos p) by (apply Z.pow_pos_nonneg; lia).
      split; [reflexivity|]. split; [|split; [discriminate|]].
      + split.
        * apply Z.div_le_lower_bound; lia.
        * apply Z.div_lt_upper_bound; lia.
      + intros Hp Hevq. injection Hp as ->. cbn [iter_pos].
        destruct (shr_record_of_loc q l) as [m0 r0 s0] eqn:Hrec.
        assert (m0 = q) as ->.
        { pose proof (shr_record_of_loc_m q l) as Hx.
          rewrite Hrec in Hx. exact Hx. }
        pose proof (shr_1_round_even q r0 s0 Hq0 Hevq) as Hx.
        cbv zeta in Hx. rewrite shr_1_half in Hx by lia.
        change (2 ^ 1) with 2. exact Hx. }
  pose proof (round_nearest_even_bounds (shr_m mrs1) (loc_of_shr_record mrs1))
    as Hr.
  assert (Hexact : l = loc_Exact -> k = 0 ->
            round_nearest_even (shr_m mrs1) (loc_of_shr_record mrs1) = q).
  { intros Hl Hk0. rewrite (Hex Hl Hk0). cbn [round_nearest_even].
    rewrite Hm1, Hk0. change (2 ^ 0) with 1. apply Z.div_1_r. }
  set (m2 := round_nearest_even (shr_m mrs1) (loc_of_shr_record mrs1)) in *.
  rewrite Hm1 in Hr.
  assert (Hunit : k <= 1 -> m2 * 2 ^ k <= q + 1).
  { intros Hk1. assert (k = 0 \/ k = 1) as [-> | ->] by lia.
    - change (2 ^ 0) with 1 in *. rewrite Z.div_1_r in Hr. lia.
    - change (2 ^ 1) with 2 in *.
      pose proof (Z.div_mod q 2 ltac:(lia)) as Hdm.
      pose proof (Z.mod_pos_bound q 2 ltac:(lia)) as Hmb.
      destruct (Z.even q) eqn:Hevq.
      + rewrite (Hev eq_refl eq_refl). lia.
      + assert (q mod 2 = 1).
        { rewrite Zmod_even, Hevq. reflexivity. }
        lia. }
  change (1024 - 53) with 971.
  destruct (Z.eq_dec m2 (2 ^ 53)) as [Heq | Hne].
  - rewrite Heq.
    replace (Zdigits2 (2 ^ 53)) with 54 by reflexivity.
    rewrite fexp_normal by lia.
    replace (54 + (e + k) - 53 - (e + k)) with 1 by lia.
    cbn [shr iter_pos shr_record_of_loc].
    change (2 ^ 53) with (Zpos (xO (Pos.pow 2 52))).
    cbn [shr_1 shr_m].
    exists (Pos.pow 2 52), (e + k + 1). split; [reflexivity|].
    change (Z.pos (2 ^ 52)) with (2 ^ 52).
    split; [lia|]. split; [lia|].
    replace (e + k + 1 - (e + k)) with 1 by lia.
    change (2 ^ 52 * 2 ^ 1) with (2 ^ 53). rewrite <- Heq.
    split; [exact Hr|]. split; [|exact Hunit].
    intros Hl Hk0. specialize (Hexact Hl Hk0). subst k. lia.
  - assert (Hm2 : 2 ^ 52 <= m2 < 2 ^ 53) by lia.
    rewrite (Zdigits2_unique m2 53) by (try lia; exact Hm2).
    rewrite fexp_normal by lia.
    replace (53 + (e + k) - 53 - (e + k)) with 0 by lia.
    cbn [shr]. rewrite shr_record_of_loc_m.
    destruct m2 as [|p2|p2] eqn:Em2; try lia.
    exists p2, (e + k). split; [reflexivity|]. split; [exact Hm2|].
    split; [lia|].
    replace (e + k - (e + k)) with 0 by lia. change (2 ^ 0) with 1.
    rewrite Z.mul_1_r. split; [exact Hr|]. split; [|exact Hunit].
    intros Hl Hk0. specialize (Hexact Hl Hk0). subst k.
    replace (e + 0 - e) with 0 by lia. change (2 ^ 0) with 1. lia.
Qed.

Lemma div_eucl_div_mod (a b : Z) : Z.div_eucl a b = (a / b, a mod b).
Proof. unfold Z.div, Z.modulo. now destruct (Z.div_eucl a b). Qed.

(** Division of two normal floats whose quotient stays in the normal
    range: the result is normal, and its mantissa, scaled to the exponent
    of the truncated quotient, is that quotient truncated to 53 bits or one
    unit more. *)
Lemma SFdiv_normal (sx sy : bool) (mx my : positive) (ex ey : Z) :
  Zpos (digits2_pos mx) = 53 -> Zpos (digits2_pos my) = 53 ->
  -1021 <= ex - ey -> ex - ey <= 1022 ->
  let q := Zpos mx * 2 ^ 53 / Zpos my in
  let k := if (my <=? mx)%positive then 1 else 0 in
  let E := ex - ey - 53 + k in
  exists m' e',
    SFdiv 53 1024 (S754_finite sx mx ex) (S754_finite sy my ey)
      = S754_finite (xorb sx sy) m' e'
    /\ 2 ^ 52 <= Zpos m' < 2 ^ 53
    /\ E <= e' <= E + 1
    /\ q / 2 ^ k <= Zpos m' * 2 ^ (e' - E)
    /\ Zpos m' * 2 ^ (e' - E) * 2 ^ k <= q + 1.
Proof.
  intros Dx Dy Hlo Hhi q k E.
  pose proof (digits2_pos_bounds mx) as Bx. rewrite Dx in Bx.
  pose proof (digits2_pos_bounds my) as By. rewrite Dy in By.
  change (2 ^ (53 - 1)) with (2 ^ 52) in Bx, By.
  unfold SFdiv, SFdiv_core_binary. cbn [Zdigits2].
  rewrite Dx, Dy.
  replace (53 + ex - (53 + ey)) with (ex - ey) by lia.
  rewrite fexp_normal by lia.
  rewrite Z.min_l by lia.
  replace (ex - ey - (ex - ey - 53)) with 53 by lia.
  rewrite Z.shiftl_mul_pow2 by lia.
  rewrite div_eucl_div_mod.
  fold q.
  assert (Hk : 0 <= k <= 1) by (unfold k; destruct (my <=? mx)%positive; lia).
  assert (Hq : 2 ^ (52 + k) <= q < 2 ^ (53 + k)).
  { unfold q, k. destruct (Pos.leb_spec my mx) as [Hle|Hgt].
    - change (2 ^ (52 + 1)) with (2 ^ 53).
      change (2 ^ (53 + 1)) with (2 * 2 ^ 53).
      split.
      + apply Z.div_le_lower_bound; [lia|]. nia.
      + apply Z.div_lt_upper_bound; [lia|]. nia.
    - change (2 ^ (52 + 0)) with (2 ^ 52).
      change (2 ^ (53 + 0)) with (2 ^ 53).
      split.
      + apply Z.div_le_lower_bound; [lia|]. nia.
      + apply Z.div_lt_upper_bound; [lia|]. nia. }
  destruct (binary_round_aux_shape (xorb sx sy) q (ex - ey - 53)
              (new_location (Z.pos my) (Z.pos mx * 2 ^ 53 mod Z.pos my)) k)
    as (m' & e' & Hr & Hm & He & [Hv _] & _ & Hu); try lia.
  exists m', e'.
  replace (e' <=? 971) with true in Hr by (symmetry; apply Z.leb_le; lia).
  replace (ex - ey - 53 + k) with E in He, Hv, Hu by reflexivity.
  split; [exact Hr|]. split; [exact Hm|]. split; [exact He|].
  split; [exact Hv|]. apply Hu. lia.
Qed.

Lemma Pos_iter_xO (p d : positive) :
  Zpos (Pos.iter xO p d) = Zpos p * 2 ^ Zpos d.
Proof.
  induction d as [|d IH] using Pos.peano_ind.
  - cbn. lia.
  - rewrite Pos.iter_succ, Pos2Z.inj_xO, IH, Pos2Z.inj_succ,
      Z.pow_succ_r by lia.
    lia.
Qed.

(** The float nearest to a positive integer is a normal float or [+inf]. *)
Lemma of_Z_shape (n : Z) :
  0 < n ->
  exists m e,
    of_Z n = (if e <=? 971 then S754_finite false m e
              else S754_infinity false)
    /\ 2 ^ 52 <= Zpos m < 2 ^ 53
    /\ (n < 2 ^ 1023 -> e <= 971).
Proof.
  intros Hpos. destruct n as [|p|p]; try lia.
  unfold of_Z, Py.prec, Py.emax. cbn [binary_normalize]. unfold binary_round.
  pose proof (digits2_pos_bounds p) as Bp.
  set (dg := Zpos (digits2_pos p)) in *.
  assert (Hdg : 0 < dg) by (unfold dg; lia).
  assert (Hdg' : Zpos p < 2 ^ 1023 -> dg <= 1023).
  { intros Hlt. destruct (Z.le_gt_cases dg 1023) as [H|H]; [exact H|exfalso].
    assert (2 ^ 1023 <= 2 ^ (dg - 1)) by (apply Z.pow_le_mono_r; lia). lia. }
  rewrite Z.add_0_r. rewrite fexp_normal by lia.
  unfold shl_align. rewrite Z.sub_0_r.
  destruct (dg - 53) as [|k|k] eqn:Hk.
  - destruct (binary_round_aux_shape false (Zpos p) 0 loc_Exact 0)
      as (m & e & Hr & Hm & He); try lia.
    { replace dg with 53 in Bp by lia. exact Bp. }
    exists m, e. split; [exact Hr|]. split; [exact Hm|]. lia.
  - destruct (binary_round_aux_shape false (Zpos p) 0 loc_Exact (Zpos k))
      as (m & e & Hr & Hm & He); try lia.
    { replace (52 + Z.pos k) with (dg - 1) by lia.
      replace (53 + Z.pos k) with dg by lia. exact Bp. }
    exists m, e. split; [exact Hr|]. split; [exact Hm|].
    intros Hlt. specialize (Hdg' Hlt). lia.
  - destruct (binary_round_aux_shape false (Zpos (Pos.iter xO p k))
                (Zneg k) loc_Exact 0)
      as (m & e & Hr & Hm & He); try lia.
    { rewrite Pos_iter_xO.
      assert (E : dg = 53 - Zpos k) by lia.
      rewrite E in Bp.
      change (52 + 0) with 52. change (53 + 0) with 53.
      assert (H52 : 2 ^ 52 = 2 ^ (53 - Zpos k - 1) * 2 ^ Zpos k)
        by (rewrite <- Z.pow_add_r by lia; f_equal; lia).
      assert (H53 : 2 ^ 53 = 2 ^ (53 - Zpos k) * 2 ^ Zpos k)
        by (rewrite <- Z.pow_add_r by lia; f_equal; lia).
      rewrite H52, H53.
      assert (0 < 2 ^ Z.pos k) by (apply Z.pow_pos_nonneg; lia).
      split.
      + apply Z.mul_le_mono_nonneg_r; lia.
      + apply Z.mul_lt_mono_pos_r; lia. }
    exists m, e. split; [exact Hr|]. split; [exact Hm|]. lia.
Qed.

(** Converting a positive integer never gives a zero. *)
Lemma of_Z_pos_nonzero (n : Z) : 0 < n -> is_zero (of_Z n) = false.
Proof.
  intros H. destruct (of_Z_shape n H) as (m & e & -> & _).
  now destruct (e <=? 971).
Qed.

Lemma float_of_int_small (n : Z) :
  0 < n < 2 ^ 1023 -> float_of_int n = Ok (of_Z n).
Proof.
  intros [H0 H1]. unfold float_of_int.
  destruct (of_Z_shape n H0) as (m & e & -> & _ & He).
  replace (e <=? 971) with true; [reflexivity|].
  symmetry. apply Z.leb_le. auto.
Qed.

(** An integer of at most 53 bits converts exactly. *)
Lemma of_Z_small_exact (n : Z) :
  0 < n < 2 ^ 53 ->
  exists m e,
    of_Z n = S754_finite false m e
    /\ Zpos (digits2_pos m) = 53
    /\ -52 <= e <= 0
    /\ Zpos m = n * 2 ^ (- e).
Proof.
  intros [Hpos Hlt]. destruct n as [|p|p]; try lia.
  unfold of_Z, Py.prec, Py.emax. cbn [binary_normalize]. unfold binary_round.
  pose proof (digits2_pos_bounds p) as Bp.
  set (dg := Zpos (digits2_pos p)) in *.
  assert (Hdg : 0 < dg) by (unfold dg; lia).
  assert (Hdg' : dg <= 53).
  { destruct (Z.le_gt_cases dg 53) as [H|H]; [exact H|exfalso].
    assert (2 ^ 53 <= 2 ^ (dg - 1)) by (apply Z.pow_le_mono_r; lia). lia. }
  rewrite Z.add_0_r. rewrite fexp_normal by lia.
  unfold shl_align. rewrite Z.sub_0_r.
  destruct (dg - 53) as [|k|k] eqn:Hk; [| lia |].
  - destruct (binary_round_aux_shape false (Zpos p) 0 loc_Exact 0)
      as (m & e & Hr & Hm & He & _ & Hx & _); try lia.
    { replace dg with 53 in Bp by lia. exact Bp. }
    specialize (Hx eq_refl eq_refl).
    assert (e = 0).
    { destruct (Z.eq_dec e 0) as [|Hne]; [assumption|exfalso].
      replace e with 1 in Hx by lia. change (2 ^ (1 - 0)) with 2 in Hx. lia. }
    subst e. cbn [Z.leb Z.compare] in Hr. exists m, 0.
    split; [exact Hr|]. split; [now apply digits2_pos_unique|].
    split; [lia|]. cbn in Hx |- *. lia.
  - assert (Hsh : 2 ^ 52 <= Zpos (Pos.iter xO p k) < 2 ^ 53).
    { rewrite Pos_iter_xO.
      assert (E : dg = 53 - Zpos k) by lia.
      rewrite E in Bp.
      assert (H52 : 2 ^ 52 = 2 ^ (53 - Zpos k - 1) * 2 ^ Zpos k)
        by (rewrite <- Z.pow_add_r by lia; f_equal; lia).
      assert (H53 : 2 ^ 53 = 2 ^ (53 - Zpos k) * 2 ^ Zpos k)
        by (rewrite <- Z.pow_add_r by lia; f_equal; lia).
      rewrite H52, H53.
      assert (0 < 2 ^ Z.pos k) by (apply Z.pow_pos_nonneg; lia).
      split.
      + apply Z.mul_le_mono_nonneg_r; lia.
      + apply Z.mul_lt_mono_pos_r; lia. }
    destruct (binary_round_aux_shape false (Zpos (Pos.iter xO p k))
                (Zneg k) loc_Exact 0)
      as (m & e & Hr & Hm & He & _ & Hx & _); try lia.
    specialize (Hx eq_refl eq_refl).
    assert (e = Zneg k).
    { destruct (Z.eq_dec e (Zneg k)) as [|Hne]; [assumption|exfalso].
      replace (e - Z.neg k) with 1 in Hx by lia.
      change (2 ^ 1) with 2 in Hx. lia. }
    subst e. exists m, (Zneg k).
    replace (Z.neg k <=? 971) with true in Hr by reflexivity.
    split; [exact Hr|]. split; [now apply digits2_pos_unique|].
    split; [lia|].
    replace (Z.neg k - Z.neg k) with 0 in Hx by lia.
    change (2 ^ 0) with 1 in Hx. rewrite Z.mul_1_r in Hx.
    rewrite Hx, Pos_iter_xO. reflexivity.
Qed.

End Binary64.

(** ** Facts about the monad and the loop *)

Module Steps.

Import Btrx.
Local Open Scope btrx_scope.

Lemma bind_inv {A B} (c : M A) (k : A -> M B) (st st' : state) (r : result B) :
  bind c k st = (st', r) ->
  (exists a st1, c st = (st1, Ok a) /\ k a st1 = (st', r))
  \/ (exists e, c st = (st', Raise e) /\ r = Raise e).
Proof.
  unfold bind. destruct (c st) as [st1 [a|e]]; intros H.
  - left. now exists a, st1.
  - right. exists e. now inversion H.
Qed.

Lemma bind_ok {A B} (c : M A) (k : A -> M B) (st st1 : state) (a : A) :
  c st = (st1, Ok a) -> bind c k st = k a st1.
Proof. unfold bind. now intros ->. Qed.

Lemma respects_ret {A} P Q (a : A) : respects P Q (ret a).
Proof.
  intros st st' r H. inversion H; subst. split.
  - exists []. now rewrite app_nil_r.
  - discriminate.
Qed.

Lemma respects_raise {A} (P : event -> Prop) (Q : exn -> Prop) (e : exn) :
  Q e -> respects P Q (@raise A e).
Proof.
  intros HQ st st' r H. inversion H; subst. split.
  - exists []. now rewrite app_nil_r.
  - intros e' [= <-]. exact HQ.
Qed.

Lemma respects_lift {A} (P : event -> Prop) (Q : exn -> Prop) (r : result A) :
  (forall e, r = Raise e -> Q e) -> respects P Q (lift r).
Proof.
  intros HQ st st' r' H. inversion H; subst. split.
  - exists []. now rewrite app_nil_r.
  - exact HQ.
Qed.

Lemma respects_emit (P : event -> Prop) (Q : exn -> Prop) (ev : event) :
  P ev -> respects P Q (emit ev).
Proof.
  intros HP st st' r H. inversion H; subst. split.
  - exists [ev]. split; [reflexivity|]. now constructor.
  - discriminate.
Qed.

Lemma respects_new (P : event -> Prop) (Q : exn -> Prop) (b : block) :
  (forall id, P (New id b)) -> respects P Q (new b).
Proof.
  intros HP st st' r H. inversion H; subst. split.
  - exists [New (next_id st) b]. split; [reflexivity|]. now constructor.
  - discriminate.
Qed.

Lemma respects_bind {A B} P Q (c : M A) (k : A -> M B) :
  respects P Q c -> (forall a, respects P Q (k a)) -> respects P Q (bind c k).
Proof.
  intros Hc Hk st st' r H.
  destruct (bind_inv _ _ _ _ _ H) as [(a & st1 & H1 & H2) | (e & H1 & ->)].
  - destruct (Hc _ _ _ H1) as [(ev1 & E1 & F1) _].
    destruct (Hk a _ _ _ H2) as [(ev2 & E2 & F2) HQ].
    split; [|exact HQ].
    exists (ev1 ++ ev2). split.
    + now rewrite E2, E1, app_assoc.
    + apply Forall_app. now split.
  - destruct (Hc _ _ _ H1) as [HP HQ]. split; [exact HP|].
    intros e' [= <-]. now apply HQ.
Qed.

Lemma respects_for_each {A} P Q (body : A -> M unit) (l : list A) :
  (forall a, respects P Q (body a)) -> respects P Q (for_each l body).
Proof.
  intros Hb. induction l as [|a l IH]; cbn [for_each].
  - apply respects_ret.
  - apply respects_bind; [apply Hb|intros _; exact IH].
Qed.

Lemma respects_bind_lift {A B} P Q (r : result A) (k : A -> M B) :
  (forall e, r = Raise e -> Q e) ->
  (forall a, r = Ok a -> respects P Q (k a)) ->
  respects P Q (bind (lift r) k).
Proof.
  intros HQ Hk. destruct r as [a|e].
  - intros st st' r H. unfold bind, lift in H. now apply (Hk a eq_refl st).
  - intros st st' r H. unfold bind, lift in H. inversion H; subst. split.
    + exists []. now rewrite app_nil_r.
    + intros e' [= <-]. now apply HQ.
Qed.

Lemma for_each_ext {A} (f g : A -> M unit) (l : list A) :
  (forall a st, f a st = g a st) ->
  forall st, for_each l f st = for_each l g st.
Proof.
  intros Hfg. induction l as [|a l IH]; intros st; [reflexivity|].
  cbn [for_each]. unfold bind. rewrite Hfg.
  destruct (g a st) as [st1 [[]|e]]; [apply IH|reflexivity].
Qed.

End Steps.

(** ** Facts about the parts of the constructor *)

Module Parts.

Import Btrx Steps.
Local Open Scope btrx_scope.

Lemma min_sample_rate_value : min_sample_rate = f_2e6.
Proof. vm_compute. reflexivity. Qed.

Lemma check_sample_rate_ok (r : float) :
  flt r min_sample_rate = false -> check_sample_rate r = Ok tt.
Proof. intros H. unfold check_sample_rate. now rewrite H. Qed.

(** Below the minimum the check raises: the sample-rate error, or the
    error of formatting its message at minus infinity. *)
Lemma check_sample_rate_raise (r : float) :
  flt r min_sample_rate = true ->
  check_sample_rate r
  = Raise match r with
          | S754_infinity _ => OverflowError
          | _ => SampleRateBelowMinimum r min_sample_rate
          end.
Proof.
  intros H. unfold check_sample_rate, format_d. rewrite H.
  replace (int_of_float min_sample_rate) with (Ok 2000000)
    by (vm_compute; reflexivity).
  destruct r as [s|s| |s m e]; try reflexivity.
  rewrite min_sample_rate_value in H. discriminate H.
Qed.

Lemma truediv_exn (a b : float) (e : exn) :
  truediv a b = Raise e -> e = ZeroDivisionError.
Proof. unfold truediv. destruct (is_zero b); congruence. Qed.

Lemma float_of_int_exn (n : Z) (e : exn) :
  float_of_int n = Raise e -> e = OverflowError.
Proof. unfold float_of_int. destruct (is_finite (of_Z n)); congruence. Qed.

Lemma truediv_int_exn (a : float) (n : Z) (e : exn) :
  truediv_int a n = Raise e -> front_exn e.
Proof.
  unfold truediv_int, rbind.
  destruct (float_of_int n) as [x|e'] eqn:H.
  - intros H'. now rewrite (truediv_exn _ _ _ H').
  - intros [= <-]. now rewrite (float_of_int_exn _ _ H).
Qed.

Lemma int_of_float_exn (x : float) (e : exn) :
  int_of_float x = Raise e -> front_exn e.
Proof. destruct x; cbn; intros [= <-]; exact I. Qed.

Lemma resolve_parameters_exn (o : options) (e : exn) :
  resolve_parameters o = Raise e -> front_exn e.
Proof.
  unfold resolve_parameters, rbind.
  destruct (resolve_sample_rate o) as [r|e'] eqn:Hr.
  - destruct (flt r min_sample_rate) eqn:Hlt.
    + rewrite (check_sample_rate_raise r Hlt). intros [= <-].
      now destruct r.
    + rewrite (check_sample_rate_ok r Hlt). discriminate.
  - intros [= <-]. unfold resolve_sample_rate in Hr.
    destruct (sample_rate o); [discriminate|].
    now apply truediv_int_exn in Hr.
Qed.

Lemma decimation_rate_exn (r : float) (e : exn) :
  decimation_rate r = Raise e -> front_exn e.
Proof.
  unfold decimation_rate, rbind.
  destruct (truediv r min_sample_rate) as [q|e'] eqn:H.
  - apply int_of_float_exn.
  - intros [= <-]. now rewrite (truediv_exn _ _ _ H).
Qed.

Lemma samples_per_symbol_exn (r : float) (d : Z) (e : exn) :
  samples_per_symbol r d = Raise e -> front_exn e.
Proof.
  unfold samples_per_symbol, rbind.
  destruct (truediv_int r d) as [q|e'] eqn:H.
  - intros H'. now rewrite (truediv_exn _ _ _ H').
  - intros [= <-]. now apply truediv_int_exn in H.
Qed.

Lemma select_source_respects (E : env) (o : options) :
  respects front_event front_exn (select_source E o).
Proof.
  unfold select_source.
  destruct (input_file o) as [name|].
  - destruct (String.eqb name "-"); now apply respects_new.
  - destruct (usrp2 o); [now apply respects_raise|].
    apply respects_bind; [now apply respects_new|intros src].
    apply respects_bind; [now apply respects_emit|intros _].
    apply respects_bind; [now apply respects_emit|intros _].
    apply respects_bind; [now apply respects_emit|intros _].
    destruct (negb _); [now apply respects_raise|].
    apply respects_bind; [now apply respects_emit|intros _].
    apply respects_ret.
Qed.

Lemma stage1_respects (o : options) (src : nat) :
  respects front_event front_exn (stage1 o src).
Proof.
  unfold stage1. destruct (nsamples o) as [n|]; [|apply respects_ret].
  apply respects_bind_lift; [apply int_of_float_exn|intros k _].
  apply respects_bind; [now apply respects_new|intros h].
  apply respects_bind; [now apply respects_emit|intros _].
  apply respects_ret.
Qed.

Lemma stage2_respects (o : options) (s1 : nat) :
  respects front_event front_exn (stage2 o s1).
Proof.
  unfold stage2. destruct (input_shorts o); [|apply respects_ret].
  apply respects_bind; [now apply respects_new|intros h].
  apply respects_bind; [now apply respects_emit|intros _].
  apply respects_ret.
Qed.

Lemma front_end_respects (E : env) (o : options) (args : list string) :
  respects front_event front_exn (front_end E o args).
Proof.
  unfold front_end.
  apply respects_bind.
  { destruct (negb _); [|apply respects_ret].
    apply respects_bind; [now apply respects_emit|intros _].
    now apply respects_raise. }
  intros _.
  apply respects_bind_lift; [apply resolve_parameters_exn|intros r _].
  apply respects_bind; [apply select_source_respects|intros src].
  apply respects_bind; [apply stage1_respects|intros s1].
  apply respects_bind; [apply stage2_respects|intros s2].
  apply respects_bind_lift; [apply decimation_rate_exn|intros d _].
  apply respects_bind_lift; [apply samples_per_symbol_exn|intros sps _].
  apply respects_ret.
Qed.

Lemma decoder_block (E : env) (o : options) (f : Z) (b : block) :
  decoder E o f = Ok b ->
  match b with
  | bluetooth_dump | bluetooth_LAP _ | bluetooth_UAP _ _
  | bluetooth_sniffer _ _ => True
  | _ => False
  end.
Proof.
  unfold decoder, parse_int16, rbind.
  destruct (dump o); [intros [= <-]; exact I|].
  destruct (lap o) as [l|]; [|intros [= <-]; exact I].
  destruct (uap o) as [u|].
  - destruct (int16 E l); [|discriminate].
    destruct (int16 E u); [|discriminate].
    intros [= <-]; exact I.
  - destruct (int16 E l); [|discriminate].
    intros [= <-]; exact I.
Qed.

Lemma decoder_exn (E : env) (o : options) (f : Z) (e : exn) :
  decoder E o f = Raise e -> channel_exn o e.
Proof.
  unfold decoder, parse_int16, rbind, channel_exn.
  destruct (dump o); [discriminate|].
  destruct (lap o) as [l|]; [|discriminate].
  destruct (uap o) as [u|].
  - destruct (int16 E l).
    + destruct (int16 E u); [discriminate|].
      intros [= <-]. split; [reflexivity|discriminate].
    + intros [= <-]. split; [reflexivity|discriminate].
  - destruct (int16 E l); [discriminate|].
    intros [= <-]. split; [reflexivity|discriminate].
Qed.

Lemma parse_ddc_exn (E : env) (o : options) (s : string) (e : exn) :
  parse_ddc E s = Raise e -> channel_exn o e.
Proof.
  unfold parse_ddc. destruct (str_to_num E s) as [x|].
  - destruct x; cbn; intros [= <-]; exact I.
  - intros [= <-]. exact I.
Qed.

Lemma channel_respects (E : env) (o : options) (c : context) (s : string) :
  respects (conforms c) (channel_exn o) (channel E o c s).
Proof.
  unfold channel.
  apply respects_bind_lift; [apply parse_ddc_exn|intros f _].
  apply respects_bind; [apply respects_new; intros id; cbn; auto|intros b1].
  apply respects_bind; [apply respects_new; intros id; cbn; auto|intros b2].
  apply respects_bind_lift; [apply decoder_exn|intros b Hb].
  apply decoder_block in Hb.
  apply respects_bind.
  { apply respects_new. intros id. destruct b; try contradiction; exact I. }
  intros dst. now apply respects_emit.
Qed.

Lemma front_event_conforms (c : context) (ev : event) :
  front_event ev -> conforms c ev.
Proof.
  destruct ev as [|id b| | | | |]; cbn; auto.
  destruct b; cbn; auto; discriminate.
Qed.

Lemma respects_log {A} P Q (c : M A) (st st' : state) (r : result A) :
  respects P Q c -> c st = (st', r) ->
  exists evs, log st' = log st ++ evs /\ Forall P evs.
Proof. intros Hc H. now destruct (Hc _ _ _ H). Qed.

Lemma select_source_ok (E : env) (o : options) (st st1 : state) (src : nat) :
  select_source E o st = (st1, Ok src) ->
  exists b, is_source b = true /\ In (New src b) (log st1).
Proof.
  unfold select_source.
  destruct (input_file o) as [name|].
  - destruct (String.eqb name "-"); intros [= <- <-]; cbn;
      eexists; (split; [|apply in_or_app; right; left; reflexivity]);
      reflexivity.
  - destruct (usrp2 o); [discriminate|].
    unfold bind, new, emit, raise, ret. cbn.
    destruct (negb _); [discriminate|].
    intros [= <- <-]. cbn. exists (usrp_source_c (decim o)).
    split; [reflexivity|].
    rewrite <- !app_assoc. apply in_or_app. right. left. reflexivity.
Qed.

(** What a completed front end has computed. *)
Lemma front_end_ok_inv (E : env) (o : options) (args : list string)
    (st st1 : state) (c : context) :
  front_end E o args st = (st1, Ok c) ->
  args = []
  /\ resolve_parameters o = Ok (ctx_sample_rate c)
  /\ decimation_rate (ctx_sample_rate c) = Ok (ctx_decimation c)
  /\ samples_per_symbol (ctx_sample_rate c) (ctx_decimation c) = Ok (ctx_sps c)
  /\ ctx_filter c = channel_filter (ctx_sample_rate c)
  /\ exists src b, is_source b = true /\ In (New src b) (log st1).
Proof.
  unfold front_end. intros H.
  destruct (bind_inv _ _ _ _ _ H) as [(u & sa & Ha & H0) | (e & _ & [=])].
  assert (Hargs : args = []).
  { destruct args as [|a args]; [reflexivity|]. cbn in Ha. discriminate. }
  clear Ha H.
  destruct (bind_inv _ _ _ _ _ H0) as [(r & sb & Hb & H1) | (e & _ & [=])].
  unfold lift in Hb. injection Hb as <- Hr. clear H0.
  destruct (bind_inv _ _ _ _ _ H1) as [(src & sc & Hc & H2) | (e & _ & [=])].
  clear H1.
  destruct (bind_inv _ _ _ _ _ H2) as [(s1 & sd & Hd & H3) | (e & _ & [=])].
  clear H2.
  destruct (bind_inv _ _ _ _ _ H3) as [(s2 & se & He & H4) | (e & _ & [=])].
  clear H3.
  destruct (bind_inv _ _ _ _ _ H4) as [(d & sf & Hf & H5) | (e & _ & [=])].
  unfold lift in Hf. injection Hf as <- Hd'. clear H4.
  destruct (bind_inv _ _ _ _ _ H5) as [(sps & sg & Hg & H6) | (e & _ & [=])].
  unfold lift in Hg. injection Hg as <- Hs. clear H5.
  unfold ret in H6. injection H6 as <- <-. cbn.
  repeat split; try assumption.
  destruct (select_source_ok _ _ _ _ _ Hc) as (b & Hb & Hin).
  destruct (respects_log _ _ _ _ _ _ (stage1_respects o src) Hd) as (ev1 & E1 & _).
  destruct (respects_log _ _ _ _ _ _ (stage2_respects o s1) He) as (ev2 & E2 & _).
  exists src, b. split; [exact Hb|].
  rewrite E2, E1. apply in_or_app. left. apply in_or_app. now left.
Qed.

(** The loop body, once the frequency has been parsed. *)
Lemma channel_run (E : env) (o : options) (c : context) (s : string)
    (st : state) (f : Z) :
  parse_ddc E s = Ok f ->
  channel E o c s st =
    match decoder E o f with
    | Ok dst =>
        ({| next_id := 3 + next_id st;
            log := log st ++ branch_events c (next_id st) f dst |}, Ok tt)
    | Raise e =>
        ({| next_id := 2 + next_id st;
            log := log st ++
                   [New (next_id st)
                      (freq_xlating_fir_filter_ccf (ctx_decimation c)
                         (ctx_filter c) f (ctx_sample_rate c));
                    New (S (next_id st)) (gmsk_demod f_0_32 (ctx_sps c))] |},
         Raise e)
    end.
Proof.
  intros Hp. unfold channel, bind, lift, new, connect, emit. rewrite Hp. cbn.
  destruct (decoder E o f) as [dst|e]; cbn; rewrite <- !app_assoc; reflexivity.
Qed.

Lemma channel_parse_raise (E : env) (o : options) (c : context) (s : string)
    (st : state) (e : exn) :
  parse_ddc E s = Raise e -> channel E o c s st = (st, Raise e).
Proof. intros Hp. unfold channel, bind, lift. now rewrite Hp. Qed.

(** The loop over entries that all parse, with decoders that all select. *)
Lemma for_each_channel_ok (E : env) (o : options) (c : context) :
  forall (entries : list string) (freqs : list Z),
    Forall2 (fun s f => parse_ddc E s = Ok f) entries freqs ->
    forall (dsts : list block) (st : state),
      Forall2 (fun f b => decoder E o f = Ok b) freqs dsts ->
      for_each entries (channel E o c) st =
        ({| next_id := (3 * List.length freqs + next_id st)%nat;
            log := log st
                   ++ branches_events c (next_id st) (combine freqs dsts) |},
         Ok tt).
Proof.
  induction 1 as [|s f entries freqs Hs _ IH]; intros dsts st Hd.
  - inversion Hd; subst. cbn. destruct st. cbn. now rewrite app_nil_r.
  - inversion Hd as [|f' b fs' dsts' Hb Hd']; subst.
    cbn [for_each]. unfold bind at 1.
    rewrite (channel_run E o c s st f Hs), Hb.
    rewrite (IH dsts' _ Hd'). cbn [next_id log combine branches_events List.length].
    rewrite <- app_assoc.
    replace (3 * S (List.length freqs) + next_id st)%nat
      with (3 * List.length freqs + (3 + next_id st))%nat by lia.
    reflexivity.
Qed.

Lemma ddc_freqs_app (l1 l2 : list event) :
  ddc_freqs (l1 ++ l2) = ddc_freqs l1 ++ ddc_freqs l2.
Proof.
  induction l1 as [|ev l1 IH]; [reflexivity|].
  cbn. destruct ev as [|id b| | | | |]; try exact IH.
  destruct b; try exact IH. cbn. now rewrite IH.
Qed.

Lemma ddc_freqs_front (l : list event) :
  Forall front_event l -> ddc_freqs l = [].
Proof.
  induction 1 as [|ev l Hev _ IH]; [reflexivity|].
  cbn. destruct ev as [|id b| | | | |]; try exact IH.
  destruct b; try exact IH. cbn in Hev. discriminate.
Qed.

Lemma ddc_freqs_branches (c : context) :
  forall (l : list (Z * block)) (id : nat),
    Forall (fun p => is_channel_block (snd p) = true
                     /\ forall d t f r, snd p <> freq_xlating_fir_filter_ccf d t f r) l ->
    ddc_freqs (branches_events c id l) = map fst l.
Proof.
  induction l as [|[f b] l IH]; intros id Hl; [reflexivity|].
  inversion Hl as [|? ? [_ Hb] Hl']; subst. cbn in Hb.
  cbn [branches_events map fst]. rewrite ddc_freqs_app, IH by exact Hl'.
  cbn. destruct b; try reflexivity. exfalso. eapply Hb. reflexivity.
Qed.

Lemma created_ids_branches (c : context) :
  forall (l : list (Z * block)) (id : nat),
    map fst (created (branches_events c id l)) = seq id (3 * List.length l).
Proof.
  induction l as [|[f b] l IH]; intros id; [reflexivity|].
  cbn [branches_events branch_events app created map fst List.length].
  replace (3 * S (List.length l))%nat with (3 + 3 * List.length l)%nat by lia.
  cbn [seq Nat.add]. f_equal. f_equal. f_equal. apply IH.
Qed.

Lemma decoder_raises_int16 (E : env) (o : options) (f : Z) (e : exn) :
  decoder E o f = Raise e -> exists s, e = ValueError_int16 s.
Proof.
  unfold decoder, parse_int16, rbind.
  destruct (dump o); [discriminate|].
  destruct (lap o) as [l|]; [|discriminate].
  destruct (uap o) as [u|].
  - destruct (int16 E l).
    + destruct (int16 E u); [discriminate|]. intros [= <-]. now exists u.
    + intros [= <-]. now exists l.
  - destruct (int16 E l); [discriminate|]. intros [= <-]. now exists l.
Qed.

(** Options that agree on every decoder give the same loop body. *)
Lemma channel_decoder_ext (E E' : env) (o o' : options) (c : context)
    (s : string) (st : state) :
  str_to_num E' = str_to_num E ->
  (forall f, decoder E' o' f = decoder E o f) ->
  channel E' o' c s st = channel E o c s st.
Proof.
  intros Hs Hd. unfold channel, parse_ddc. rewrite Hs.
  unfold bind, lift, new.
  destruct (match str_to_num E s with
            | Some x => int_of_float x
            | None => Raise (RuntimeError_eng s)
            end) as [f|e]; [|reflexivity].
  now rewrite Hd.
Qed.

(** A loop that ends with an engineering-notation error: the entries
    before the rejected one have each got their branch. *)
Lemma for_each_channel_eng_raise (E : env) (o : options) (c : context) :
  forall (entries : list string) (st st' : state) (s : string),
    for_each entries (channel E o c) st = (st', Raise (RuntimeError_eng s)) ->
    exists pre post freqs dsts,
      entries = pre ++ s :: post
      /\ str_to_num E s = None
      /\ Forall2 (fun x f => parse_ddc E x = Ok f) pre freqs
      /\ Forall2 (fun f b => decoder E o f = Ok b) freqs dsts
      /\ st' = {| next_id := (3 * List.length freqs + next_id st)%nat;
                  log := log st
                         ++ branches_events c (next_id st)
                              (combine freqs dsts) |}.
Proof.
  induction entries as [|a l IH]; intros st st' s H.
  - discriminate H.
  - cbn [for_each] in H. unfold bind at 1 in H.
    destruct (parse_ddc E a) as [f|e] eqn:Hp.
    + rewrite (channel_run E o c a st f Hp) in H.
      destruct (decoder E o f) as [dst|e] eqn:Hd.
      * destruct (IH _ _ _ H) as (pre & post & freqs & dsts & -> & Hn & Hf & Hb & ->).
        exists (a :: pre), post, (f :: freqs), (dst :: dsts).
        split; [reflexivity|]. split; [exact Hn|].
        split; [now constructor|]. split; [now constructor|].
        cbn [next_id log combine branches_events List.length].
        rewrite <- app_assoc.
        replace (3 * S (List.length freqs) + next_id st)%nat
          with (3 * List.length freqs + (3 + next_id st))%nat by lia.
        reflexivity.
      * destruct (decoder_raises_int16 _ _ _ _ Hd) as [x ->]. discriminate H.
    + rewrite (channel_parse_raise E o c a st e Hp) in H.
      injection H as <- ->.
      unfold parse_ddc in Hp. destruct (str_to_num E a) as [x|] eqn:Hx.
      * destruct x; discriminate Hp.
      * injection Hp as <-.
        exists [], l, [], []. split; [reflexivity|]. split; [exact Hx|].
        split; [constructor|]. split; [constructor|].
        destruct st. cbn. now rewrite app_nil_r.
Qed.

End Parts.

(** ** Facts about the derived rates *)

Module Rates.

Import Btrx Binary64 Parts.

(** A finite float at or above 2 MHz is a positive normal number. *)
Lemma rate_ge_min_shape (r : float) :
  is_float r = true -> is_finite r = true -> fle f_2e6 r = true ->
  exists m e,
    r = S754_finite false m e
    /\ Zpos (digits2_pos m) = 53
    /\ -32 <= e <= 971
    /\ (e = -32 -> (8589934592000000 <=? m)%positive = true).
Proof.
  intros Hv Hf Hle.
  destruct r as [s|s| |s m e]; try discriminate.
  unfold fle, SFleb, SFcompare, f_2e6 in Hle.
  destruct s; [discriminate|].
  unfold is_float, valid_binary, bounded, canonical_mantissa in Hv.
  apply andb_true_iff in Hv. destruct Hv as [Hc Hb].
  apply Z.eqb_eq in Hc. apply Z.leb_le in Hb.
  unfold fexp, emin, Py.prec, Py.emax in Hc, Hb.
  assert (He : -32 <= e).
  { destruct (Z.compare_spec (-32) e) as [H|H|H]; first [lia|discriminate]. }
  exists m, e. split; [reflexivity|].
  split; [lia|]. split; [lia|].
  intros ->. cbn in Hle.
  change (Pos.compare_cont Eq 8589934592000000 m)
    with (8589934592000000 ?= m)%positive in Hle.
  apply Pos.leb_le.
  destruct (Pos.compare_spec 8589934592000000 m) as [H|H|H];
    try discriminate; lia.
Qed.

(** Dividing such a rate by 2 MHz gives a normal float, at least 1. *)
Lemma min_rate_quotient (r : float) :
  is_float r = true -> is_finite r = true -> fle f_2e6 r = true ->
  exists m e,
    fdiv r f_2e6 = S754_finite false m e
    /\ 2 ^ 52 <= Zpos m < 2 ^ 53 /\ -52 <= e <= 952.
Proof.
  intros Hv Hf Hle.
  destruct (rate_ge_min_shape r Hv Hf Hle) as (mx & ex & -> & Dx & Hex & Hm).
  destruct (SFdiv_normal false false mx 8589934592000000 ex (-32) Dx)
    as (m & e & Hq & Hmq & [Hlo Hhi] & _); try lia.
  { reflexivity. }
  exists m, e. split; [exact Hq|]. split; [exact Hmq|].
  destruct (Z.eq_dec ex (-32)) as [Heq|Hne].
  - rewrite (Hm Heq) in Hlo, Hhi. lia.
  - destruct (8589934592000000 <=? mx)%positive; lia.
Qed.

(** The integer part of a normal float with exponent at least [-52]. *)
Lemma trunc_normal (m : positive) (e : Z) :
  2 ^ 52 <= Zpos m < 2 ^ 53 -> -52 <= e <= 952 ->
  1 <= trunc_finite false m e < 2 ^ 1023
  /\ floor (S754_finite false m e) = Some (trunc_finite false m e).
Proof.
  intros Hm He. split.
  - unfold trunc_finite. destruct e as [|p|p].
    + split; [lia|].
      assert (2 ^ 53 < 2 ^ 1023) by (apply Z.pow_lt_mono_r; lia). lia.
    + assert (0 < 2 ^ Zpos p) by (apply Z.pow_pos_nonneg; lia).
      split; [nia|].
      assert (2 ^ 53 * 2 ^ Zpos p <= 2 ^ 1023).
      { rewrite <- Z.pow_add_r by lia. apply Z.pow_le_mono_r; lia. }
      nia.
    + assert (0 < 2 ^ Zpos p) by (apply Z.pow_pos_nonneg; lia).
      assert (2 ^ Zpos p <= 2 ^ 52) by (apply Z.pow_le_mono_r; lia).
      split.
      * apply Z.div_le_lower_bound; lia.
      * assert (Zpos m / 2 ^ Zpos p <= Zpos m)
          by (apply Z.div_le_upper_bound; nia).
        assert (2 ^ 53 < 2 ^ 1023) by (apply Z.pow_lt_mono_r; lia). lia.
  - cbn [floor]. unfold trunc_finite. now destruct e.
Qed.

(** The decimation rate of a finite rate at or above 2 MHz exists, is the
    floor of the float quotient, and is at least 1. *)
Lemma decimation_rate_valid (r : float) :
  is_float r = true -> is_finite r = true -> fle f_2e6 r = true ->
  exists d,
    decimation_rate r = Ok d
    /\ floor (fdiv r min_sample_rate) = Some d
    /\ 1 <= d < 2 ^ 1023.
Proof.
  intros Hv Hf Hle.
  destruct (min_rate_quotient r Hv Hf Hle) as (m & e & Hq & Hm & He).
  destruct (trunc_normal m e Hm He) as [Hd Hfl].
  exists (trunc_finite false m e).
  rewrite min_sample_rate_value. unfold decimation_rate.
  rewrite min_sample_rate_value. unfold truediv.
  change (is_zero f_2e6) with false. cbn [rbind].
  rewrite Hq. cbn [int_of_float]. repeat split; try assumption; apply Hd.
Qed.

Lemma samples_per_symbol_valid (r : float) (d : Z) :
  1 <= d < 2 ^ 1023 ->
  samples_per_symbol r d = Ok (fdiv (fdiv r (of_Z d)) symbol_rate).
Proof.
  intros Hd. unfold samples_per_symbol, truediv_int.
  rewrite float_of_int_small by lia. cbn [rbind].
  unfold truediv at 1. rewrite of_Z_pos_nonzero by lia. cbn [rbind].
  reflexivity.
Qed.

(** Below [2^60] the float quotient by 2 MHz never rounds up to or past an
    integer: its integer part is the floor of the exact quotient. *)
Lemma min_rate_quotient_exact (mx : positive) (ex : Z) :
  Zpos (digits2_pos mx) = 53 ->
  -32 <= ex <= 7 ->
  (ex = -32 -> (8589934592000000 <=? mx)%positive = true) ->
  exists m e,
    fdiv (S754_finite false mx ex) f_2e6 = S754_finite false m e
    /\ 1 <= trunc_finite false m e
    /\ trunc_finite false m e * 8589934592000000 <= Zpos mx * 2 ^ (ex + 32)
    /\ Zpos mx * 2 ^ (ex + 32)
       < (trunc_finite false m e + 1) * 8589934592000000.
Proof.
  intros Dx Hex Hm.
  pose proof (digits2_pos_bounds mx) as Bx. rewrite Dx in Bx.
  change (2 ^ (53 - 1)) with (2 ^ 52) in Bx.
  destruct (SFdiv_normal false false mx 8589934592000000 ex (-32) Dx)
    as (m & e & Hq & Hmq & He & Hlo & Hhi); try lia.
  { reflexivity. }
  exists m, e. split; [exact Hq|].
  set (my := 8589934592000000) in *.
  set (q := Zpos mx * 2 ^ 53 / my) in *.
  set (k := if (8589934592000000 <=? mx)%positive then 1 else 0) in *.
  assert (Hk : 0 <= k <= 1)
    by (unfold k; destruct (8589934592000000 <=? mx)%positive; lia).
  assert (Hk32 : ex = -32 -> k = 1) by (intros H; unfold k; now rewrite (Hm H)).
  set (E := ex - -32 - 53 + k) in *.
  set (t := - E).
  assert (Ht : 13 <= t) by (unfold t, E; lia).
  set (u := ex + 32).
  assert (Hu : 0 <= u <= 39) by (unfold u; lia).
  (* the division *)
  pose proof (Z.div_mod (Zpos mx * 2 ^ 53) my ltac:(unfold my; lia)) as Hdm.
  pose proof (Z.mod_pos_bound (Zpos mx * 2 ^ 53) my ltac:(unfold my; lia)) as Hmb.
  fold q in Hdm.
  set (rem := (Zpos mx * 2 ^ 53) mod my) in *.
  (* truncating by k bits *)
  assert (H2k : 0 < 2 ^ k) by (apply Z.pow_pos_nonneg; lia).
  pose proof (Z.div_mod q (2 ^ k) ltac:(lia)) as Hdk.
  pose proof (Z.mod_pos_bound q (2 ^ k) ltac:(lia)) as Hmk.
  set (h := q / 2 ^ k) in *.
  set (m2 := Zpos m * 2 ^ (e - E)) in *.
  (* the integer part *)
  assert (He' : e <= -12) by (unfold E in He; lia).
  destruct e as [|p|p]; try lia.
  set (d := trunc_finite false m (Zneg p)).
  assert (Hd : d = Zpos m / 2 ^ Zpos p) by reflexivity.
  assert (H2p : 0 < 2 ^ Zpos p) by (apply Z.pow_pos_nonneg; lia).
  pose proof (Z.div_mod (Zpos m) (2 ^ Zpos p) ltac:(lia)) as Hdp.
  pose proof (Z.mod_pos_bound (Zpos m) (2 ^ Zpos p) ltac:(lia)) as Hmp.
  rewrite <- Hd in Hdp.
  assert (H2t : 2 ^ t = 2 ^ Zpos p * 2 ^ (Zneg p - E)).
  { rewrite <- Z.pow_add_r by lia. f_equal. unfold t. lia. }
  assert (H2s : 0 < 2 ^ (Zneg p - E)) by (apply Z.pow_pos_nonneg; lia).
  assert (Hdt : d * 2 ^ t <= m2 < (d + 1) * 2 ^ t).
  { unfold m2. rewrite H2t. split; nia. }
  assert (H2t0 : 0 < 2 ^ t) by (apply Z.pow_pos_nonneg; lia).
  (* powers *)
  assert (H53 : 2 ^ 53 = 2 ^ t * 2 ^ k * 2 ^ u).
  { rewrite <- !Z.pow_add_r by lia. f_equal. unfold t, E, u. lia. }
  assert (H2u : 0 < 2 ^ u) by (apply Z.pow_pos_nonneg; lia).
  assert (Hmy : my = 15625 * 2 ^ (39 - u) * 2 ^ u).
  { rewrite <- Z.mul_assoc, <- Z.pow_add_r by lia.
    replace (39 - u + u) with 39 by lia. reflexivity. }
  assert (H2c : 0 < 2 ^ (39 - u)) by (apply Z.pow_pos_nonneg; lia).
  set (c := 15625 * 2 ^ (39 - u)) in *.
  set (P := 2 ^ t * 2 ^ k) in *.
  assert (HP : 0 < P) by (unfold P; nia).
  assert (Hmy53 : my < 2 ^ 53) by (unfold my; reflexivity).
  fold u.
  split; [|split].
  - (* d >= 1 *)
    assert (2 ^ Zpos p <= 2 ^ 52) by (apply Z.pow_le_mono_r; unfold E in He; lia).
    rewrite Hd. apply Z.div_le_lower_bound; lia.
  - (* no integer is crossed upwards *)
    assert (HD : d * P <= q + 1) by (unfold P; nia).
    assert (HDm : d * P * my <= Zpos mx * 2 ^ 53 + my) by nia.
    rewrite Hmy in HDm |- *. rewrite H53 in HDm. fold P c in HDm |- *.
    assert (HB : P * 2 ^ u * (d * c - Zpos mx) <= c * 2 ^ u) by nia.
    assert (Hlt : c * 2 ^ u < P * 2 ^ u).
    { rewrite <- Hmy, <- H53. exact Hmy53. }
    assert (d * c - Zpos mx < 1) by nia.
    nia.
  - (* the integer part is not too small *)
    assert (HD : q + 1 <= (d + 1) * P) by (unfold P; nia).
    assert (HDm : Zpos mx * 2 ^ 53 < (d + 1) * P * my) by nia.
    rewrite H53 in HDm. fold P in HDm.
    nia.
Qed.

(** Dividing a rate below [2^60] by an integer [d] with [d * 2e6 <= rate]
    in exact arithmetic gives a float that is again at or above 2 MHz. *)
Lemma quotient_by_decimation (mx : positive) (ex d : Z) :
  Zpos (digits2_pos mx) = 53 ->
  -32 <= ex <= 7 ->
  1 <= d ->
  d * 8589934592000000 <= Zpos mx * 2 ^ (ex + 32) ->
  exists m e,
    fdiv (S754_finite false mx ex) (of_Z d) = S754_finite false m e
    /\ Zpos (digits2_pos m) = 53
    /\ -32 <= e <= 971
    /\ (e = -32 -> (8589934592000000 <=? m)%positive = true).
Proof.
  intros Dx Hex Hd1 Hle.
  pose proof (digits2_pos_bounds mx) as Bx. rewrite Dx in Bx.
  change (2 ^ (53 - 1)) with (2 ^ 52) in Bx.
  set (my := 8589934592000000) in *.
  assert (Hmy : 2 ^ 52 < my < 2 ^ 53) by (unfold my; split; reflexivity).
  set (u := ex + 32) in *.
  assert (H2u : 0 < 2 ^ u <= 2 ^ 39).
  { split; [apply Z.pow_pos_nonneg; lia|apply Z.pow_le_mono_r; lia]. }
  assert (Hd53 : d < 2 ^ 53).
  { assert (2 ^ 53 * 2 ^ 39 < 2 ^ 53 * 2 ^ 52) by reflexivity. nia. }
  destruct (of_Z_small_exact d ltac:(lia)) as (md & ed & Hof & Dd & Hed & Hmd).
  rewrite Hof.
  pose proof (digits2_pos_bounds md) as Bd. rewrite Dd in Bd.
  change (2 ^ (53 - 1)) with (2 ^ 52) in Bd.
  destruct (SFdiv_normal false false mx md ex ed Dx Dd)
    as (m & e & Hq & Hm & He & Hlo & _); try lia.
  exists m, e. split; [exact Hq|].
  split; [now apply digits2_pos_unique|].
  set (q := Zpos mx * 2 ^ 53 / Zpos md) in *.
  set (k := if (md <=? mx)%positive then 1 else 0) in *.
  assert (Hk : 0 <= k <= 1) by (unfold k; destruct (md <=? mx)%positive; lia).
  set (E := ex - ed - 53 + k) in *.
  set (g := u - ed).
  assert (H2e : 0 < 2 ^ (- ed)) by (apply Z.pow_pos_nonneg; lia).
  assert (H2g : 2 ^ g = 2 ^ u * 2 ^ (- ed)).
  { rewrite <- Z.pow_add_r by lia. f_equal; unfold g; lia. }
  assert (Hg : Zpos md * my <= Zpos mx * 2 ^ g).
  { rewrite Hmd, H2g. nia. }
  assert (Hg52 : 52 <= g).
  { destruct (Z.le_gt_cases 52 g) as [H|H]; [exact H|exfalso].
    assert (0 <= g) by (unfold g; lia).
    assert (2 ^ g <= 2 ^ 51) by (apply Z.pow_le_mono_r; lia).
    assert (2 ^ 53 * 2 ^ 51 = 2 ^ 52 * 2 ^ 52) by reflexivity.
    nia. }
  assert (HE : E = g - 85 + k) by (unfold E, g, u; lia).
  destruct (Z.le_gt_cases (-31) E) as [Hbig|Hsmall].
  { split; [lia|]. intros H. lia. }
  (* the truncated quotient is at least 2e6 at its own exponent *)
  set (w := 53 - g - k).
  assert (Hw : 0 <= w <= 1) by (unfold w; lia).
  assert (H2w : 0 < 2 ^ w) by (apply Z.pow_pos_nonneg; lia).
  assert (H2k : 0 < 2 ^ k) by (apply Z.pow_pos_nonneg; lia).
  assert (H53 : 2 ^ 53 = 2 ^ g * (2 ^ w * 2 ^ k)).
  { rewrite <- !Z.pow_add_r by lia. f_equal. unfold w. lia. }
  assert (Hq1 : my * 2 ^ w * 2 ^ k <= q).
  { unfold q. apply Z.div_le_lower_bound; [lia|]. rewrite H53. nia. }
  assert (Hh : my * 2 ^ w <= q / 2 ^ k).
  { apply Z.div_le_lower_bound; [lia|]. nia. }
  assert (Hval : my * 2 ^ w <= Zpos m * 2 ^ (e - E)) by lia.
  assert (Hew : e - E = 0 \/ e - E = 1) by lia.
  assert (Hww : w = 0 \/ w = 1) by lia.
  assert (HEw : E = -32 - w) by (unfold w; lia).
  destruct Hew as [He0|He1], Hww as [Hw0|Hw1].
  - rewrite He0, Hw0 in Hval. change (2 ^ 0) with 1 in Hval.
    split; [lia|]. intros _. apply Pos.leb_le. lia.
  - rewrite He0, Hw1 in Hval. change (2 ^ 0) with 1 in Hval.
    change (2 ^ 1) with 2 in Hval. lia.
  - rewrite He1, Hw0 in Hval. split; lia.
  - rewrite He1, Hw1 in Hval. change (2 ^ 1) with 2 in Hval.
    split; [lia|]. intros _. apply Pos.leb_le. lia.
Qed.

(** Dividing a float at or above 2 MHz by 1 MHz gives at least 2.0. *)
Lemma symbol_quotient_ge_two (m : positive) (e : Z) :
  Zpos (digits2_pos m) = 53 ->
  -32 <= e <= 971 ->
  (e = -32 -> (8589934592000000 <=? m)%positive = true) ->
  fle f_2 (fdiv (S754_finite false m e) symbol_rate) = true.
Proof.
  intros Dm He Hm.
  change symbol_rate with (S754_finite false 8589934592000000 (-33)).
  destruct (SFdiv_normal false false m 8589934592000000 e (-33) Dm)
    as (m3 & e3 & Hq & Hm3 & He3 & _); try lia.
  { reflexivity. }
  unfold fdiv, Py.prec, Py.emax. rewrite Hq.
  assert (He3' : -51 <= e3).
  { destruct (Z.eq_dec e (-32)) as [Heq|Hne].
    - rewrite (Hm Heq) in He3. lia.
    - destruct (8589934592000000 <=? m)%positive; lia. }
  unfold fle, SFleb, SFcompare, f_2. cbn [xorb].
  destruct (Z.compare_spec (-51) e3) as [H|H|H];
    [|reflexivity|exfalso; lia].
  change (Pos.compare_cont Eq 4503599627370496 m3)
    with (4503599627370496 ?= m3)%positive.
  destruct (Pos.compare_spec 4503599627370496 m3) as [H'|H'|H'];
    try reflexivity.
  exfalso. clear - Hm3 H'.
  apply Pos2Z.pos_lt_pos in H'.
  change (Z.pos 4503599627370496) with (2 ^ 52) in H'. lia.
Qed.


(** The order of two positive finite floats, read on their fields. *)
Lemma flt_finite_pos (m1 m2 : positive) (e1 e2 : Z) :
  flt (S754_finite false m1 e1) (S754_finite false m2 e2) = true ->
  e1 < e2 \/ (e1 = e2 /\ Zpos m1 < Zpos m2).
Proof.
  unfold flt, SFltb, SFcompare.
  change (Pos.compare_cont Eq m1 m2) with (m1 ?= m2)%positive.
  destruct (Z.compare_spec e1 e2) as [H|H|H]; try discriminate.
  - destruct (Pos.compare_spec m1 m2) as [H'|H'|H']; try discriminate.
    intros _. right. split; [exact H|]. now apply Pos2Z.pos_lt_pos.
  - intros _. now left.
Qed.

(** Below [2^60] Hz the derived channel parameters satisfy the invariants:
    the decimation rate is the floor of the exact quotient, at least 1, and
    the samples-per-symbol value is at least 2.0. *)
Lemma rates_below_2_60 (r : float) :
  is_float r = true -> fle f_2e6 r = true ->
  flt r f_2p60 = true ->
  exists d sps,
    decimation_rate r = Ok d
    /\ exact_floor_div r 2000000 = Some d
    /\ 1 <= d
    /\ samples_per_symbol r d = Ok sps
    /\ fle f_2 sps = true.
Proof.
  intros Hv Hle Hlt. unfold f_2p60 in Hlt.
  assert (Hf : is_finite r = true).
  { destruct r as [s|s| |s m e]; try reflexivity.
    - destruct s; [discriminate Hle|discriminate Hlt].
    - discriminate Hle. }
  destruct (rate_ge_min_shape r Hv Hf Hle) as (mx & ex & -> & Dx & Hex & Hm).
  pose proof (digits2_pos_bounds mx) as Bx. rewrite Dx in Bx.
  change (2 ^ (53 - 1)) with (2 ^ 52) in Bx.
  assert (Hex7 : ex <= 7).
  { destruct (flt_finite_pos _ _ _ _ Hlt) as [H|[H H']].
    - clear - H. lia.
    - exfalso. clear - Bx H'.
      change (Z.pos 4503599627370496) with (2 ^ 52) in H'. lia. }
  assert (Hex' : -32 <= ex <= 7) by (clear - Hex Hex7; lia).
  destruct (min_rate_quotient_exact mx ex Dx Hex' Hm)
    as (m & e & Hq & Hd1 & Hlo & Hhi).
  set (d := trunc_finite false m e) in *.
  destruct (quotient_by_decimation mx ex d Dx Hex' Hd1 Hlo)
    as (m1 & e1 & Hq1 & D1 & He1 & Hm1).
  assert (Hd1023 : d < 2 ^ 1023).
  { assert (0 < 2 ^ (ex + 32) <= 2 ^ 39).
    { split; [apply Z.pow_pos_nonneg; lia|apply Z.pow_le_mono_r; lia]. }
    assert (2 ^ 53 * 2 ^ 39 < 2 ^ 1023 * 8589934592000000) by reflexivity.
    nia. }
  exists d, (fdiv (fdiv (S754_finite false mx ex) (of_Z d)) symbol_rate).
  split; [|split; [|split; [exact Hd1|split]]].
  - unfold decimation_rate. rewrite min_sample_rate_value. unfold truediv.
    change (is_zero f_2e6) with false. cbn [rbind]. rewrite Hq. reflexivity.
  - cbn [exact_floor_div]. f_equal.
    assert (Hmy : 8589934592000000 = 2000000 * 2 ^ 32) by reflexivity.
    rewrite Hmy in Hlo, Hhi.
    destruct ex as [|p|p].
    + change (2 ^ (0 + 32)) with (2 ^ 32) in Hlo, Hhi.
      symmetry. apply Z.div_unique with (r := Zpos mx - 2000000 * d); lia.
    + assert (H2p : 0 < 2 ^ Zpos p) by (apply Z.pow_pos_nonneg; lia).
      rewrite Z.pow_add_r in Hlo, Hhi by lia.
      symmetry.
      apply Z.div_unique with (r := Zpos mx * 2 ^ Zpos p - 2000000 * d); nia.
    + assert (H2p : 0 < 2 ^ Zpos p) by (apply Z.pow_pos_nonneg; lia).
      assert (H32 : 2 ^ 32 = 2 ^ (Zneg p + 32) * 2 ^ Zpos p).
      { rewrite <- Z.pow_add_r by lia. f_equal. lia. }
      assert (H2n : 0 < 2 ^ (Zneg p + 32)) by (apply Z.pow_pos_nonneg; lia).
      rewrite H32 in Hlo, Hhi.
      symmetry.
      apply Z.div_unique
        with (r := Zpos mx - 2000000 * 2 ^ Zpos p * d); nia.
  - apply samples_per_symbol_valid. lia.
  - rewrite Hq1. now apply symbol_quotient_ge_two.
Qed.

End Rates.

(** ** The specification's claims *)

Import Btrx Bench Binary64 Steps Parts Rates.

Lemma SFcompare_swap (a b : float) :
  SFcompare b a = option_map CompOpp (SFcompare a b).
Proof.
  destruct a as [[]|[]| |[] ma ea], b as [[]|[]| |[] mb eb];
    try reflexivity; cbn [SFcompare option_map];
    rewrite (Z.compare_antisym ea eb);
    change (Pos.compare_cont Eq mb ma) with (mb ?= ma)%positive;
    change (Pos.compare_cont Eq ma mb) with (ma ?= mb)%positive;
    rewrite (Pos.compare_antisym ma mb);
    destruct (ea ?= eb); cbn [CompOpp]; try reflexivity;
    destruct (ma ?= mb)%positive; reflexivity.
Qed.

Lemma fle_not_flt (a b : float) : fle a b = true -> flt b a = false.
Proof.
  unfold fle, flt, SFleb, SFltb. rewrite (SFcompare_swap a b).
  destruct (SFcompare a b) as [[]|]; cbn; congruence.
Qed.

(** C1: for a positive decimation factor, the resolved sample rate is the
    rate the user supplied when there is one, whatever the USRP2 flag and
    the decimation factor are; otherwise it is the Python quotient of the
    assumed ADC rate (100e6 with the USRP2 flag, 64e6 without) by the
    decimation factor, which is their binary64 quotient whenever the
    factor is in the range of a float. *)
Theorem resolved_sample_rate_formula (o : options) :
  0 < decim o ->
  let adc := if usrp2 o then of_Z 100000000 else of_Z 64000000 in
  match sample_rate o with
  | Some r =>
      resolve_sample_rate o = Ok r
      /\ forall u d, resolve_sample_rate (with_usrp2_decim o u d) = Ok r
  | None =>
      resolve_sample_rate o = truediv_int adc (decim o)
      /\ (is_finite (of_Z (decim o)) = true ->
          resolve_sample_rate o = Ok (fdiv adc (of_Z (decim o))))
  end.
Proof.
  intros Hd adc. unfold resolve_sample_rate.
  destruct (sample_rate o) as [r|] eqn:Hr.
  - split; [reflexivity|]. intros u d. cbn. now rewrite Hr.
  - assert (Hadc : adc_rate o = adc).
    { unfold adc_rate, adc. now destruct (usrp2 o). }
    rewrite Hadc. split; [reflexivity|].
    intros Hfin. unfold truediv_int, float_of_int. rewrite Hfin.
    cbn [rbind]. unfold truediv. now rewrite of_Z_pos_nonzero.
Qed.

Lemma resolved_sample_rate_formula_witness :
  0 < decim default_options
  /\ resolve_sample_rate default_options
     = Ok (fdiv (of_Z 64000000) (of_Z 32)).
Proof.
  split; [reflexivity|].
  apply (proj2 (resolved_sample_rate_formula default_options eq_refl)).
  vm_compute. reflexivity.
Defined.

(** C2 fails on the code: plus infinity is a sample rate at or above
    2,000,000 and passes the check of line 77, but parameter resolution
    does not succeed at it: the decimation rate of line 130 raises the
    overflow error, when the source has already been created. *)
Lemma infinite_rate_passes_validation :
  resolve_sample_rate
    (with_sample_rate stdin_options (Some (S754_infinity false)))
  = Ok (S754_infinity false)
  /\ fle (of_Z 2000000) (S754_infinity false) = true
  /\ resolve_parameters
       (with_sample_rate stdin_options (Some (S754_infinity false)))
     = Ok (S754_infinity false)
  /\ decimation_rate (S754_infinity false) = Raise OverflowError
  /\ run bench_env
       (with_sample_rate stdin_options (Some (S754_infinity false))) []
     = ({| next_id := 1;
           log := [New 0 (file_descriptor_source sizeof_gr_complex 0)] |},
        Raise OverflowError).
Proof. repeat split; vm_compute; reflexivity. Qed.

(** C2 as amended: once the sample rate is resolved, lines 67-78 fail
    exactly when that rate compares strictly below 2,000,000, and such a
    failure leaves the constructor before anything is logged or built; at
    every finite rate below 2,000,000 the failure is the sample-rate error
    of line 78 (at minus infinity formatting its message raises the
    overflow error instead); at every rate at or above 2,000,000 the check
    passes, and at every finite binary64 one the rest of parameter
    resolution succeeds too: the decimation rate exists, is at least 1,
    and the samples-per-symbol value exists. *)
Theorem sample_rate_validation (E : env) (o : options) (r : float) :
  resolve_sample_rate o = Ok r ->
  ((exists e, resolve_parameters o = Raise e) <-> flt r (of_Z 2000000) = true)
  /\ (forall e, resolve_parameters o = Raise e ->
                run E o [] = (initial, Raise e))
  /\ (flt r (of_Z 2000000) = true -> is_finite r = true ->
      resolve_parameters o
      = Raise (SampleRateBelowMinimum r (of_Z 2000000)))
  /\ (r = S754_infinity true -> resolve_parameters o = Raise OverflowError)
  /\ (fle (of_Z 2000000) r = true -> resolve_parameters o = Ok r)
  /\ (is_float r = true -> is_finite r = true ->
      fle (of_Z 2000000) r = true ->
      exists d sps,
        decimation_rate r = Ok d /\ 1 <= d
        /\ samples_per_symbol r d = Ok sps).
Proof.
  intros Hr.
  assert (Hm : min_sample_rate = of_Z 2000000) by (vm_compute; reflexivity).
  assert (Hres : resolve_parameters o
                 = rbind (check_sample_rate r) (fun _ => Ok r)).
  { unfold resolve_parameters. now rewrite Hr. }
  assert (Hge : flt r (of_Z 2000000) = false -> resolve_parameters o = Ok r).
  { intros H. rewrite Hres, check_sample_rate_ok by (now rewrite Hm).
    reflexivity. }
  assert (Hlt : flt r (of_Z 2000000) = true ->
                resolve_parameters o
                = Raise match r with
                        | S754_infinity _ => OverflowError
                        | _ => SampleRateBelowMinimum r (of_Z 2000000)
                        end).
  { intros H. rewrite Hres, check_sample_rate_raise by (now rewrite Hm).
    rewrite Hm. reflexivity. }
  split; [|split; [|split; [|split; [|split]]]].
  - split.
    + intros [e He]. destruct (flt r (of_Z 2000000)) eqn:H; [reflexivity|].
      rewrite (Hge eq_refl) in He. discriminate.
    + intros H. eexists. now apply Hlt.
  - intros e He. unfold run, init, front_end, bind, lift, ret.
    cbn [List.length Nat.eqb negb]. now rewrite He.
  - intros H Hfin. rewrite (Hlt H).
    destruct r as [s|s| |s m e]; try reflexivity; discriminate Hfin.
  - intros ->. apply Hlt. reflexivity.
  - intros H. apply Hge. now apply fle_not_flt.
  - intros Hv Hfin Hle.
    change (of_Z 2000000) with f_2e6 in Hle.
    destruct (decimation_rate_valid r Hv Hfin Hle) as (d & Hd & _ & Hb).
    exists d, (fdiv (fdiv r (of_Z d)) symbol_rate).
    split; [exact Hd|]. split; [lia|].
    now apply samples_per_symbol_valid.
Qed.

Lemma sample_rate_validation_witness :
  resolve_sample_rate (with_usrp2_decim default_options false 64)
    = Ok (of_Z 1000000)
  /\ run bench_env (with_usrp2_decim default_options false 64) []
     = (initial,
        Raise (SampleRateBelowMinimum (of_Z 1000000) (of_Z 2000000))).
Proof.
  split; [vm_compute; reflexivity|].
  refine (proj1 (proj2
    (sample_rate_validation bench_env
       (with_usrp2_decim default_options false 64) (of_Z 1000000) _)) _ _).
  - vm_compute. reflexivity.
  - vm_compute. reflexivity.
Defined.

(** C3: the decoder is chosen by one decision on the options: the dump
    flag gives the dump decoder whatever the LAP and UAP strings are;
    otherwise no LAP gives the LAP detector carrying the channel's
    frequency offset; a LAP without a UAP gives the UAP detector carrying
    the parsed LAP and the packet budget; a LAP and a UAP give the sniffer
    carrying both parsed values.  Every pass of the channel loop makes this
    same decision, with its own frequency offset. *)
Theorem decoder_selection (E : env) (o : options) :
  (dump o = true -> forall f, decoder E o f = Ok bluetooth_dump)
  /\ (dump o = false -> lap o = None ->
      forall f, decoder E o f = Ok (bluetooth_LAP f))
  /\ (forall l lv, dump o = false -> lap o = Some l -> uap o = None ->
      int16 E l = Some lv ->
      forall f, decoder E o f = Ok (bluetooth_UAP lv (packets o)))
  /\ (forall l u lv uv, dump o = false -> lap o = Some l -> uap o = Some u ->
      int16 E l = Some lv -> int16 E u = Some uv ->
      forall f, decoder E o f = Ok (bluetooth_sniffer lv uv))
  /\ (forall c s st f dst,
      parse_ddc E s = Ok f -> decoder E o f = Ok dst ->
      channel E o c s st
      = ({| next_id := 3 + next_id st;
            log := log st ++ branch_events c (next_id st) f dst |}, Ok tt)).
Proof.
  unfold decoder, parse_int16.
  split; [|split; [|split; [|split]]].
  - now intros ->.
  - now intros -> ->.
  - intros l lv -> -> -> Hl f. now rewrite Hl.
  - intros l u lv uv -> -> -> Hl Hu f. now rewrite Hl, Hu.
  - intros c s st f dst Hp Hd.
    rewrite (channel_run E o c s st f Hp). unfold decoder, parse_int16.
    now rewrite Hd.
Qed.

Lemma decoder_selection_witness :
  decoder bench_env (with_lap_uap stdin_options (Some "11223344"%string) None) 0
    = Ok (bluetooth_UAP 287454020 100)
  /\ decoder bench_env
       (with_dump (with_lap_uap stdin_options (Some "zz"%string) None) true) 0
     = Ok bluetooth_dump.
Proof.
  split.
  - refine (proj1 (proj2 (proj2
      (decoder_selection bench_env
         (with_lap_uap stdin_options (Some "11223344"%string) None))))
      "11223344"%string 287454020 _ _ _ _ 0); reflexivity.
  - refine (proj1
      (decoder_selection bench_env
         (with_dump (with_lap_uap stdin_options (Some "zz"%string) None) true))
      _ 0); reflexivity.
Defined.

(** What holds of the decimation rate at every binary64 sample rate at or
    above the minimum: it is the floor of the float quotient of the rate
    by 2,000,000 (both are undefined at an infinite rate); at every finite
    such rate it exists and is at least 1; below 2^60 Hz it is also the
    floor of the exact quotient; 2,000,000 gives 1 and 5,000,000 gives
    2. *)
Lemma decimation_rate_floor (r : float) :
  is_float r = true -> fle min_sample_rate r = true ->
  to_option (decimation_rate r) = floor (fdiv r (of_Z 2000000))
  /\ (is_finite r = true ->
      exists d, decimation_rate r = Ok d
                /\ floor (fdiv r (of_Z 2000000)) = Some d /\ 1 <= d)
  /\ (flt r (of_Z (2 ^ 60)) = true ->
      to_option (decimation_rate r) = exact_floor_div r 2000000)
  /\ decimation_rate (of_Z 2000000) = Ok 1
  /\ decimation_rate (of_Z 5000000) = Ok 2.
Proof.
  intros Hv Hle. rewrite min_sample_rate_value in Hle.
  assert (Hfin : is_finite r = true ->
            exists d, decimation_rate r = Ok d
                      /\ floor (fdiv r (of_Z 2000000)) = Some d /\ 1 <= d).
  { intros Hf. destruct (decimation_rate_valid r Hv Hf Hle) as (d & H1 & H2 & H3).
    rewrite min_sample_rate_value in H2.
    exists d. repeat split; try assumption. lia. }
  split; [|split; [exact Hfin|split; [|split; vm_compute; reflexivity]]].
  2: { intros Hlt.
       change (of_Z (2 ^ 60)) with f_2p60 in Hlt.
       destruct (rates_below_2_60 r Hv Hle Hlt) as (d & sps & -> & -> & _).
       reflexivity. }
  destruct (is_finite r) eqn:Hf.
  - destruct (Hfin eq_refl) as (d & -> & -> & _). reflexivity.
  - destruct r as [s|s| |s m e]; try discriminate.
    destruct s; [discriminate|reflexivity].
Qed.

(** C4, at a rate where it fails: the float 33 * 2^67 is the integer
    4869940435459321626624 exactly and passes the validation; the floor of
    its quotient by 2,000,000 is 2434970217729660, but the decimation rate
    is 2434970217729661, because the float quotient rounds up before
    [int] truncates it; the channel filter is built with that rate. *)
Theorem decimation_rate_above_exact_floor :
  let r := of_Z 4869940435459321626624 in
  let o := with_sample_rate stdin_options (Some r) in
  is_float r = true
  /\ int_of_float r = Ok 4869940435459321626624
  /\ resolve_parameters o = Ok r
  /\ 4869940435459321626624 / 2000000 = 2434970217729660
  /\ exact_floor_div r 2000000 = Some 2434970217729660
  /\ decimation_rate r = Ok 2434970217729661
  /\ In (New 1 (freq_xlating_fir_filter_ccf 2434970217729661
                  (channel_filter r) 0 r))
        (log (fst (run bench_env o []))).
Proof.
  cbv zeta. repeat split; try (vm_compute; reflexivity).
  vm_compute. right. left. reflexivity.
Qed.

(** The log of a run: events of the front end only, or events that all
    conform to the channel parameters the front end computed. *)
Lemma run_log_conforms (E : env) (o : options) (args : list string)
    (st : state) (res : result unit) :
  run E o args = (st, res) ->
  Forall front_event (log st)
  \/ exists c st1,
       front_end E o args initial = (st1, Ok c)
       /\ Forall (conforms c) (log st).
Proof.
  unfold run, init. intros H.
  destruct (bind_inv _ _ _ _ _ H) as [(c & st1 & H1 & H2) | (e & H1 & _)].
  - right. exists c, st1. split; [exact H1|].
    destruct (respects_log _ _ _ _ _ _ (front_end_respects E o args) H1)
      as (ev1 & E1 & F1).
    assert (Hloop : respects (conforms c) (channel_exn o)
                      (for_each (split_comma (ddc o)) (channel E o c)))
      by (apply respects_for_each; intros s; apply channel_respects).
    destruct (respects_log _ _ _ _ _ _ Hloop H2) as (ev2 & E2 & F2).
    rewrite E2, E1. cbn [log initial app].
    apply Forall_app. split; [|exact F2].
    eapply Forall_impl; [|exact F1]. intros ev. apply front_event_conforms.
  - left.
    destruct (respects_log _ _ _ _ _ _ (front_end_respects E o args) H1)
      as (ev1 & E1 & F1).
    rewrite E1. exact F1.
Qed.

(** C6, at a rate where it fails: the float 33 * 2^67 passes the
    validation; its decimation rate is 2434970217729661, one more than the
    floor of the exact quotient, because the float quotient rounds up; the
    samples-per-symbol value computed from them, and handed to the
    demodulator, is (2^53 - 1) / 2^52, strictly below 2.0. *)
Theorem samples_per_symbol_below_two :
  let r := of_Z 4869940435459321626624 in
  let o := with_sample_rate stdin_options (Some r) in
  is_float r = true
  /\ resolve_parameters o = Ok r
  /\ decimation_rate r = Ok 2434970217729661
  /\ exact_floor_div r 2000000 = Some 2434970217729660
  /\ samples_per_symbol r 2434970217729661
     = Ok (S754_finite false 9007199254740991 (-52))
  /\ flt (S754_finite false 9007199254740991 (-52)) (of_Z 2) = true
  /\ In (New 2 (gmsk_demod f_0_32 (S754_finite false 9007199254740991 (-52))))
        (log (fst (run bench_env o []))).
Proof.
  cbv zeta. repeat split; try (vm_compute; reflexivity).
  vm_compute. right. right. left. reflexivity.
Qed.

(** C7: when the front end has completed, every entry of the comma
    separated list parses to a frequency and a decoder is selected for each,
    the run completes and builds exactly one branch per entry, in list
    order, whose filter is centred on the parsed value of its entry; the
    blocks of all branches are pairwise distinct, so a repeated entry gets
    a branch of its own.  The list "0,1000000,2000000" gives the three
    offsets 0, 1000000, 2000000 in that order. *)
Theorem one_branch_per_entry (E : env) (o : options) (args : list string)
    (st1 : state) (c : context) (freqs : list Z) (dsts : list block) :
  front_end E o args initial = (st1, Ok c) ->
  Forall2 (fun s f => parse_ddc E s = Ok f) (split_comma (ddc o)) freqs ->
  Forall2 (fun f b => decoder E o f = Ok b) freqs dsts ->
  run E o args
    = ({| next_id := (3 * List.length freqs + next_id st1)%nat;
          log := log st1
                 ++ branches_events c (next_id st1) (combine freqs dsts) |},
       Ok tt)
  /\ ddc_freqs (log (fst (run E o args))) = freqs
  /\ List.length freqs = List.length (split_comma (ddc o))
  /\ NoDup (map fst (created
              (branches_events c (next_id st1) (combine freqs dsts))))
  /\ ddc_freqs (log (fst (run bench_env
                            (with_ddc stdin_options "0,1000000,2000000") [])))
     = [0; 1000000; 2000000].
Proof.
  intros Hfe Hp Hd.
  assert (Hrun : run E o args
    = ({| next_id := (3 * List.length freqs + next_id st1)%nat;
          log := log st1
                 ++ branches_events c (next_id st1) (combine freqs dsts) |},
       Ok tt)).
  { unfold run, init. rewrite (bind_ok _ _ _ _ _ Hfe).
    now apply for_each_channel_ok. }
  split; [exact Hrun|]. split; [|split; [|split]].
  - rewrite Hrun. cbn [fst log]. rewrite ddc_freqs_app.
    destruct (respects_log _ _ _ _ _ _ (front_end_respects E o args) Hfe)
      as (ev1 & E1 & F1).
    rewrite E1. cbn [log initial app]. rewrite (ddc_freqs_front _ F1).
    cbn [app]. rewrite ddc_freqs_branches.
    + clear -Hd. induction Hd as [|f b fs bs _ _ IH]; [reflexivity|].
      cbn. now rewrite IH.
    + clear -Hd. induction Hd as [|f b fs bs Hb _ IH]; [constructor|].
      cbn [combine]. constructor; [|exact IH]. cbn [snd].
      apply decoder_block in Hb. destruct b; try contradiction;
        (split; [reflexivity|discriminate]).
  - symmetry. eapply Forall2_length. exact Hp.
  - rewrite created_ids_branches. apply seq_NoDup.
  - vm_compute. reflexivity.
Qed.

Lemma one_branch_per_entry_witness :
  ddc_freqs (log (fst (run bench_env (with_ddc stdin_options "7,7") [])))
  = [7; 7].
Proof.
  refine (proj1 (proj2
    (one_branch_per_entry bench_env (with_ddc stdin_options "7,7") []
       (fst (front_end bench_env (with_ddc stdin_options "7,7") [] initial))
       {| ctx_sample_rate := of_Z 2000000;
          ctx_stage2 := 0;
          ctx_filter := channel_filter (of_Z 2000000);
          ctx_decimation := 1;
          ctx_sps := of_Z 2 |}
       [7; 7] [bluetooth_LAP 7; bluetooth_LAP 7] _ _ _))).
  - vm_compute. reflexivity.
  - repeat constructor.
  - repeat constructor.
Defined.

(** C8 fails on the code: with samples read from standard input and the
    frequency list "x", the engineering-notation error is raised when the
    source has already been created. *)
Lemma malformed_frequency_after_source :
  run bench_env (with_ddc stdin_options "x") []
  = ({| next_id := 1;
        log := [New 0 (file_descriptor_source sizeof_gr_complex 0)] |},
     Raise (RuntimeError_eng "x")).
Proof. vm_compute. reflexivity. Qed.

(** C8 as amended: an error of parameter resolution (a sample rate below
    the minimum among them) leaves the constructor before anything is
    logged or built; an engineering-notation error is raised inside the
    channel loop, at the first entry of the frequency list that the parser
    rejects: the front end has completed then, a source has been created,
    and each entry before the rejected one has got its branch. *)
Theorem configuration_error_timing (E : env) (o : options) :
  (forall e, resolve_parameters o = Raise e ->
             run E o [] = (initial, Raise e))
  /\ (forall st s,
      run E o [] = (st, Raise (RuntimeError_eng s)) ->
      exists st1 c pre post freqs dsts,
        front_end E o [] initial = (st1, Ok c)
        /\ split_comma (ddc o) = pre ++ s :: post
        /\ str_to_num E s = None
        /\ Forall2 (fun x f => parse_ddc E x = Ok f) pre freqs
        /\ Forall2 (fun f b => decoder E o f = Ok b) freqs dsts
        /\ log st = log st1
                    ++ branches_events c (next_id st1) (combine freqs dsts)
        /\ exists src b, is_source b = true /\ In (New src b) (log st1)).
Proof.
  split.
  - intros e He. unfold run, init, front_end, bind, lift, ret.
    cbn [List.length Nat.eqb negb]. now rewrite He.
  - intros st s H. unfold run, init in H.
    destruct (bind_inv _ _ _ _ _ H) as [(c & st1 & H1 & H2) | (e & H1 & He)].
    + destruct (for_each_channel_eng_raise E o c _ _ _ _ H2)
        as (pre & post & freqs & dsts & Hsplit & Hnone & Hf & Hd & ->).
      exists st1, c, pre, post, freqs, dsts.
      split; [exact H1|]. split; [exact Hsplit|]. split; [exact Hnone|].
      split; [exact Hf|]. split; [exact Hd|]. split; [reflexivity|].
      destruct (front_end_ok_inv _ _ _ _ _ _ H1)
        as (_ & _ & _ & _ & _ & src & b & Hb & Hsrc).
      now exists src, b.
    + destruct (front_end_respects E o [] _ _ _ H1) as [_ HQ].
      injection He as <-. destruct (HQ _ eq_refl).
Qed.

Lemma configuration_error_timing_witness :
  exists st1 c pre post freqs dsts,
    front_end bench_env (with_ddc stdin_options "7,x") [] initial = (st1, Ok c)
    /\ split_comma (ddc (with_ddc stdin_options "7,x")) = pre ++ "x"%string :: post
    /\ str_to_num bench_env "x" = None
    /\ Forall2 (fun x f => parse_ddc bench_env x = Ok f) pre freqs
    /\ Forall2 (fun f b =>
                  decoder bench_env (with_ddc stdin_options "7,x") f = Ok b)
         freqs dsts
    /\ log (fst (run bench_env (with_ddc stdin_options "7,x") []))
       = log st1 ++ branches_events c (next_id st1) (combine freqs dsts)
    /\ exists src b, is_source b = true /\ In (New src b) (log st1).
Proof.
  refine (proj2 (configuration_error_timing bench_env
                   (with_ddc stdin_options "7,x"))
            (fst (run bench_env (with_ddc stdin_options "7,x") []))
            "x"%string _).
  vm_compute. reflexivity.
Defined.

(** C9 fails on the code: with the hardware source, the USRP2 flag and a
    decimation factor of 64, the constructor leaves with the sample-rate
    error (100e6 / 64 is below the minimum), not with the not-implemented
    error. *)
Lemma usrp2_low_rate_not_unimplemented :
  run bench_env (with_usrp2_decim default_options true 64) []
  = (initial,
     Raise (SampleRateBelowMinimum (of_Z 1562500) (of_Z 2000000))).
Proof. vm_compute. reflexivity. Qed.

(** C9 as amended: when parameter resolution succeeds, no input file is
    named and the USRP2 flag is set, the constructor leaves with the
    not-implemented error before anything is logged or built. *)
Theorem usrp2_not_implemented (E : env) (o : options) (r : float) :
  resolve_parameters o = Ok r ->
  input_file o = None ->
  usrp2 o = true ->
  run E o [] = (initial, Raise NotImplementedError).
Proof.
  intros Hr Hi Hu.
  unfold run, init, front_end, select_source, bind, lift, ret, raise.
  cbn [List.length Nat.eqb negb]. now rewrite Hr, Hi, Hu.
Qed.

Lemma usrp2_not_implemented_witness :
  run bench_env (with_usrp2_decim default_options true 32) []
  = (initial, Raise NotImplementedError).
Proof.
  refine (usrp2_not_implemented bench_env
            (with_usrp2_decim default_options true 32)
            (fdiv (of_Z 100000000) (of_Z 32)) _ _ _).
  - vm_compute. reflexivity.
  - reflexivity.
  - reflexivity.
Defined.

(** C10: with the dump flag set the decoder is the dump decoder, the run
    is the same whatever the LAP and UAP strings are and whatever the
    hexadecimal parser answers, and it never raises a hexadecimal parse
    error; without the dump flag and without a LAP, the UAP string and the
    hexadecimal parser are not consulted either; a hexadecimal parse error
    needs the dump flag unset and a LAP string. *)
Theorem dump_ignores_addresses (E : env) (o : options) :
  (dump o = true ->
     (forall f, decoder E o f = Ok bluetooth_dump)
     /\ (forall args l u, run E (with_lap_uap o l u) args = run E o args)
     /\ (forall args p, run (with_int16 E p) o args = run E o args))
  /\ (dump o = false -> lap o = None ->
      forall u p f,
        decoder (with_int16 E p) (with_lap_uap o None u) f = decoder E o f)
  /\ (forall args st s,
      run E o args = (st, Raise (ValueError_int16 s)) ->
      dump o = false /\ lap o <> None).
Proof.
  split; [|split].
  - intros Hdump. split; [|split].
    + intros f. unfold decoder. now rewrite Hdump.
    + intros args l u. unfold run, init.
      change (front_end E (with_lap_uap o l u) args) with (front_end E o args).
      change (ddc (with_lap_uap o l u)) with (ddc o).
      unfold bind. destruct (front_end E o args initial) as [st1 [c|e]];
        [|reflexivity].
      apply for_each_ext. intros s st.
      apply channel_decoder_ext; [reflexivity|].
      intros f. unfold decoder. cbn [dump with_lap_uap]. now rewrite Hdump.
    + intros args p. unfold run, init.
      change (front_end (with_int16 E p) o args) with (front_end E o args).
      unfold bind. destruct (front_end E o args initial) as [st1 [c|e]];
        [|reflexivity].
      apply for_each_ext. intros s st.
      apply channel_decoder_ext; [reflexivity|].
      intros f. unfold decoder. now rewrite Hdump.
  - intros Hdump Hlap u p f. unfold decoder. cbn [dump lap with_lap_uap].
    now rewrite Hdump, Hlap.
  - intros args st s H. unfold run, init in H.
    destruct (bind_inv _ _ _ _ _ H) as [(c & st1 & H1 & H2) | (e & H1 & He)].
    + assert (Hloop : respects (conforms c) (channel_exn o)
                        (for_each (split_comma (ddc o)) (channel E o c)))
        by (apply respects_for_each; intros x; apply channel_respects).
      destruct (Hloop _ _ _ H2) as [_ HQ]. exact (HQ _ eq_refl).
    + destruct (front_end_respects E o args _ _ _ H1) as [_ HQ].
      injection He as <-. destruct (HQ _ eq_refl).
Qed.

Lemma dump_ignores_addresses_witness :
  run bench_env
    (with_lap_uap (with_dump stdin_options true)
       (Some "zz"%string) (Some "yy"%string)) []
  = run bench_env (with_dump stdin_options true) [].
Proof.
  refine (proj1 (proj2 (proj1
    (dump_ignores_addresses bench_env (with_dump stdin_options true)) _))
    [] (Some "zz"%string) (Some "yy"%string)).
  reflexivity.
Defined.

(** ** Further properties of the constructor *)

(** *** The frequency list *)

Lemma count_commas_app (a b : string) :
  count_commas (a ++ b) = (count_commas a + count_commas b)%nat.
Proof.
  induction a as [|c a IH]; cbn; [reflexivity|].
  destruct (Ascii.eqb c ","); rewrite IH; reflexivity.
Qed.

Lemma append_snoc (a : string) (c : ascii) (b : string) :
  ((a ++ String c EmptyString) ++ b = a ++ String c b)%string.
Proof. induction a as [|x a IH]; cbn; [reflexivity|]. now rewrite IH. Qed.

Lemma append_empty_r (a : string) : (a ++ "")%string = a.
Proof. induction a as [|x a IH]; cbn; [reflexivity|now rewrite IH]. Qed.

Lemma split_comma_aux_spec (s : string) :
  forall (cur : string -> string) (pre : string),
    (forall t, cur t = (pre ++ t)%string) ->
    count_commas pre = O ->
    join_comma (split_comma_aux cur s) = (pre ++ s)%string
    /\ List.length (split_comma_aux cur s) = S (count_commas s)
    /\ Forall (fun f => count_commas f = O) (split_comma_aux cur s).
Proof.
  induction s as [|c s IH]; intros cur pre Hcur Hpre.
  - cbn. rewrite Hcur. repeat split.
    constructor; [|constructor]. rewrite count_commas_app, Hpre. reflexivity.
  - cbn [split_comma_aux count_commas].
    destruct (Ascii.eqb c ",") eqn:Hc.
    + apply Ascii.eqb_eq in Hc. subst c.
      destruct (IH (fun t => t) EmptyString (fun t => eq_refl) eq_refl)
        as (Hj & Hl & Hf).
      cbn [append] in Hj.
      split; [|split].
      * unfold join_comma in *.
        destruct (split_comma_aux (fun t => t) s) as [|x l] eqn:Hs;
          [cbn in Hl; discriminate|].
        cbn [String.concat] in *. rewrite Hj, Hcur, append_empty_r.
        reflexivity.
      * cbn [List.length]. now rewrite Hl.
      * constructor; [|exact Hf]. rewrite Hcur, count_commas_app, Hpre. reflexivity.
    + rewrite <- (append_snoc pre c s).
      apply (IH (fun t => cur (String c t)) (pre ++ String c EmptyString)%string).
      * intros t. rewrite Hcur. now rewrite append_snoc.
      * rewrite count_commas_app, Hpre. cbn. now rewrite Hc.
Qed.

Lemma split_comma_length (s : string) :
  List.length (split_comma s) = S (count_commas s).
Proof.
  apply (split_comma_aux_spec s (fun t => t) EmptyString); reflexivity.
Qed.

(** *** Decimation factors *)

(** The float nearest to a non-zero integer of either sign: a normal float
    or an infinity of that sign, whose exponent is at least the number of
    binary digits of the integer less 53. *)
Lemma binary_round_shape (s : bool) (p : positive) :
  exists m e,
    binary_round 53 1024 s p 0
      = (if e <=? 971 then S754_finite s m e else S754_infinity s)
    /\ 2 ^ 52 <= Zpos m < 2 ^ 53
    /\ Zpos (digits2_pos p) - 53 <= e.
Proof.
  unfold binary_round.
  pose proof (digits2_pos_bounds p) as Bp.
  set (dg := Zpos (digits2_pos p)) in *.
  assert (Hdg : 0 < dg) by (unfold dg; lia).
  cbn [Zdigits2]. fold dg.
  rewrite Z.add_0_r. rewrite fexp_normal by lia.
  unfold shl_align. rewrite Z.sub_0_r.
  destruct (dg - 53) as [|k|k] eqn:Hk.
  - destruct (binary_round_aux_shape s (Zpos p) 0 loc_Exact 0)
      as (m & e & Hr & Hm & He & _); try lia.
    { replace dg with 53 in Bp by lia. exact Bp. }
    exists m, e. split; [exact Hr|]. split; [exact Hm|]. lia.
  - destruct (binary_round_aux_shape s (Zpos p) 0 loc_Exact (Zpos k))
      as (m & e & Hr & Hm & He & _); try lia.
    { replace (52 + Z.pos k) with (dg - 1) by lia.
      replace (53 + Z.pos k) with dg by lia. exact Bp. }
    exists m, e. split; [exact Hr|]. split; [exact Hm|]. lia.
  - destruct (binary_round_aux_shape s (Zpos (Pos.iter xO p k))
                (Zneg k) loc_Exact 0)
      as (m & e & Hr & Hm & He & _); try lia.
    { rewrite Pos_iter_xO.
      assert (E : dg = 53 - Zpos k) by lia.
      rewrite E in Bp.
      change (52 + 0) with 52. change (53 + 0) with 53.
      assert (H52 : 2 ^ 52 = 2 ^ (53 - Zpos k - 1) * 2 ^ Zpos k)
        by (rewrite <- Z.pow_add_r by lia; f_equal; lia).
      assert (H53 : 2 ^ 53 = 2 ^ (53 - Zpos k) * 2 ^ Zpos k)
        by (rewrite <- Z.pow_add_r by lia; f_equal; lia).
      rewrite H52, H53.
      assert (0 < 2 ^ Z.pos k) by (apply Z.pow_pos_nonneg; lia).
      split.
      + apply Z.mul_le_mono_nonneg_r; lia.
      + apply Z.mul_lt_mono_pos_r; lia. }
    exists m, e. split; [exact Hr|]. split; [exact Hm|]. lia.
Qed.

Lemma of_Z_signed_shape (n : Z) :
  n <> 0 ->
  exists m e,
    of_Z n = (if e <=? 971 then S754_finite (n <? 0) m e
              else S754_infinity (n <? 0))
    /\ 2 ^ 52 <= Zpos m < 2 ^ 53
    /\ (forall j, 0 <= j -> 2 ^ j <= Z.abs n -> j - 52 <= e).
Proof.
  intros Hn. unfold of_Z, Py.prec, Py.emax.
  destruct n as [|p|p]; [contradiction| |]; cbn [binary_normalize Z.ltb Z.compare Z.abs];
    [destruct (binary_round_shape false p) as (m & e & Hr & Hm & He)
    |destruct (binary_round_shape true p) as (m & e & Hr & Hm & He)];
    exists m, e; (split; [exact Hr|]); (split; [exact Hm|]);
    intros j Hj Hle;
    pose proof (digits2_pos_bounds p) as Bp;
    assert (j < Zpos (digits2_pos p))
      by (apply (Z.pow_lt_mono_r_iff 2); lia);
    lia.
Qed.

(** A quotient of a normal positive float by a normal float is below
    2,000,000 when the divisor is negative, or when its exponent is within
    18 of the dividend's (the dividend's exponent being at most -26). *)
Lemma quotient_below_min (mx : positive) (ex : Z) (s : bool)
    (my : positive) (ey : Z) :
  Zpos (digits2_pos mx) = 53 -> 2 ^ 52 <= Zpos my < 2 ^ 53 ->
  -27 <= ex <= -26 -> -52 <= ey <= 971 ->
  s = true \/ -44 <= ey ->
  flt (fdiv (S754_finite false mx ex) (S754_finite s my ey)) f_2e6 = true.
Proof.
  intros Dx By Hex Hey Hs.
  assert (Dy : Zpos (digits2_pos my) = 53)
    by (apply digits2_pos_unique; exact By).
  destruct (SFdiv_normal false s mx my ex ey Dx Dy) as (m' & e' & Hq & Hm & He & _);
    try lia.
  unfold fdiv, Py.prec, Py.emax. rewrite Hq. cbn [xorb].
  destruct s.
  - reflexivity.
  - destruct Hs as [Hs|Hs]; [discriminate|].
    unfold flt, SFltb, f_2e6, SFcompare.
    assert (Hlt : e' < -32).
    { destruct (my <=? mx)%positive; lia. }
    apply Z.compare_lt_iff in Hlt. rewrite Hlt. reflexivity.
Qed.

(** Parameter resolution on the decimation factors 1 to 255, by
    evaluation. *)
Lemma small_decimation_factors (u : bool) :
  forallb
    (fun d =>
       Bool.eqb
         match rbind (truediv_int (if u then f_100e6 else f_64e6) d)
                 (fun r => rbind (check_sample_rate r) (fun _ => Ok r)) with
         | Ok _ => true
         | Raise _ => false
         end
         (d <=? (if u then 50 else 32)))
    (map Z.of_nat (seq 1 255)) = true.
Proof. destruct u; vm_compute; reflexivity. Qed.

(** X1: when no sample rate is given, parameter resolution succeeds
    exactly for the decimation factors 1 to 32 (1 to 50 with the USRP2
    flag); a factor of 0 stops it with Python's division-by-zero error. *)
Theorem accepted_decimation_factors (o : options) :
  sample_rate o = None ->
  ((exists r, resolve_parameters o = Ok r)
   <-> 1 <= decim o <= (if usrp2 o then 50 else 32))
  /\ (decim o = 0 -> resolve_parameters o = Raise ZeroDivisionError).
Proof.
  intros Hs.
  assert (Hres : resolve_parameters o
                 = rbind (truediv_int (if usrp2 o then f_100e6 else f_64e6)
                            (decim o))
                     (fun r => rbind (check_sample_rate r) (fun _ => Ok r))).
  { unfold resolve_parameters, resolve_sample_rate, adc_rate. now rewrite Hs. }
  split.
  2: { intros Hd. rewrite Hres, Hd. destruct (usrp2 o); reflexivity. }
  rewrite Hres. clear Hres Hs.
  set (u := usrp2 o). set (d := decim o). clearbody u d. clear o.
  destruct (Z.eq_dec d 0) as [-> | Hnz].
  { split; [|lia]. intros [r Hr]. destruct u; discriminate Hr. }
  destruct (Z_le_gt_dec 1 d) as [Hpos|Hneg];
    [destruct (Z_le_gt_dec d 255) as [Hsmall|Hbig]|].
  - (* 1 <= d <= 255 *)
    pose proof (small_decimation_factors u) as Hall.
    rewrite forallb_forall in Hall.
    assert (Hin : In d (map Z.of_nat (seq 1 255))).
    { replace d with (Z.of_nat (Z.to_nat d)) by lia.
      apply in_map. apply in_seq. lia. }
    specialize (Hall d Hin). apply Bool.eqb_prop in Hall.
    destruct (rbind _ _) as [r|e].
    + symmetry in Hall. apply Z.leb_le in Hall.
      split; [intros _; lia|intros _; now exists r].
    + symmetry in Hall. apply Z.leb_gt in Hall.
      split; [intros [r Hr]; discriminate|intros H; lia].
  - (* 256 <= d *)
    split; [|destruct u; lia]. intros [r Hr]. exfalso.
    destruct (of_Z_signed_shape d Hnz) as (m & e & Hd & Hm & He).
    pose proof (He 0 ltac:(lia) ltac:(cbn; lia)) as He0.
    pose proof (He 8 ltac:(lia) ltac:(change (2 ^ 8) with 256; lia)) as He8.
    unfold truediv_int, float_of_int in Hr. rewrite Hd in Hr.
    replace (d <? 0) with false in Hr by (symmetry; apply Z.ltb_ge; lia).
    destruct (Z.leb_spec e 971) as [Hle|Hgt]; [|discriminate Hr].
    cbn [is_finite rbind] in Hr. unfold truediv in Hr. cbn [is_zero] in Hr.
    cbn [rbind] in Hr.
    assert (Hlt : flt (fdiv (if u then f_100e6 else f_64e6)
                         (S754_finite false m e)) f_2e6 = true).
    { destruct u; unfold f_100e6, f_64e6;
        apply quotient_below_min; try lia; try reflexivity; right; lia. }
    rewrite <- min_sample_rate_value in Hlt.
    rewrite (check_sample_rate_raise _ Hlt) in Hr. discriminate Hr.
  - (* d < 0 *)
    split; [|lia]. intros [r Hr]. exfalso.
    destruct (of_Z_signed_shape d Hnz) as (m & e & Hd & Hm & He).
    pose proof (He 0 ltac:(lia) ltac:(cbn; lia)) as He0.
    unfold truediv_int, float_of_int in Hr. rewrite Hd in Hr.
    replace (d <? 0) with true in Hr by (symmetry; apply Z.ltb_lt; lia).
    destruct (Z.leb_spec e 971) as [Hle|Hgt]; [|discriminate Hr].
    cbn [is_finite rbind] in Hr. unfold truediv in Hr. cbn [is_zero] in Hr.
    cbn [rbind] in Hr.
    assert (Hlt : flt (fdiv (if u then f_100e6 else f_64e6)
                         (S754_finite true m e)) f_2e6 = true).
    { destruct u; unfold f_100e6, f_64e6;
        apply quotient_below_min; try lia; try reflexivity; left; reflexivity. }
    rewrite <- min_sample_rate_value in Hlt.
    rewrite (check_sample_rate_raise _ Hlt) in Hr. discriminate Hr.
Qed.

Lemma accepted_decimation_factors_witness :
  sample_rate default_options = None
  /\ exists r, resolve_parameters default_options = Ok r.
Proof.
  split; [reflexivity|].
  apply (proj1 (accepted_decimation_factors default_options eq_refl)).
  cbn. lia.
Defined.

(** *** Completed runs *)

Lemma for_each_channel_ok_inv (E : env) (o : options) (c : context) :
  forall (entries : list string) (st st' : state),
    for_each entries (channel E o c) st = (st', Ok tt) ->
    exists freqs dsts,
      Forall2 (fun s f => parse_ddc E s = Ok f) entries freqs
      /\ Forall2 (fun f b => decoder E o f = Ok b) freqs dsts
      /\ st' = {| next_id := (3 * List.length freqs + next_id st)%nat;
                  log := log st
                         ++ branches_events c (next_id st)
                              (combine freqs dsts) |}.
Proof.
  induction entries as [|a l IH]; intros st st' H.
  - injection H as <-. exists [], []. repeat split; try constructor.
    destruct st. cbn. now rewrite app_nil_r.
  - cbn [for_each] in H. unfold bind at 1 in H.
    destruct (parse_ddc E a) as [f|e] eqn:Hp.
    + rewrite (channel_run E o c a st f Hp) in H.
      destruct (decoder E o f) as [dst|e] eqn:Hd; [|discriminate H].
      destruct (IH _ _ H) as (freqs & dsts & Hf & Hb & ->).
      exists (f :: freqs), (dst :: dsts).
      split; [now constructor|]. split; [now constructor|].
      cbn [next_id log combine branches_events List.length].
      rewrite <- app_assoc.
      replace (3 * S (List.length freqs) + next_id st)%nat
        with (3 * List.length freqs + (3 + next_id st))%nat by lia.
      reflexivity.
    + rewrite (channel_parse_raise E o c a st e Hp) in H. discriminate H.
Qed.

Lemma run_ok_inv (E : env) (o : options) (args : list string) (st : state) :
  run E o args = (st, Ok tt) ->
  exists st1 c freqs dsts,
    front_end E o args initial = (st1, Ok c)
    /\ Forall2 (fun s f => parse_ddc E s = Ok f) (split_comma (ddc o)) freqs
    /\ Forall2 (fun f b => decoder E o f = Ok b) freqs dsts
    /\ st = {| next_id := (3 * List.length freqs + next_id st1)%nat;
               log := log st1
                      ++ branches_events c (next_id st1)
                           (combine freqs dsts) |}.
Proof.
  unfold run, init. intros H.
  destruct (bind_inv _ _ _ _ _ H) as [(c & st1 & H1 & H2) | (e & _ & [=])].
  destruct (for_each_channel_ok_inv E o c _ _ _ H2)
    as (freqs & dsts & Hf & Hd & ->).
  now exists st1, c, freqs, dsts.
Qed.

(** X2: the constructor completes exactly when the front end completes,
    every entry of the frequency list parses and a decoder is selected for
    each; the log is then the log of the front end followed by one branch
    per entry, in list order. *)
Theorem completed_run_shape (E : env) (o : options) (args : list string)
    (st : state) :
  run E o args = (st, Ok tt)
  <-> exists st1 c freqs dsts,
        front_end E o args initial = (st1, Ok c)
        /\ Forall2 (fun s f => parse_ddc E s = Ok f) (split_comma (ddc o)) freqs
        /\ Forall2 (fun f b => decoder E o f = Ok b) freqs dsts
        /\ st = {| next_id := (3 * List.length freqs + next_id st1)%nat;
                   log := log st1
                          ++ branches_events c (next_id st1)
                               (combine freqs dsts) |}.
Proof.
  split.
  - apply run_ok_inv.
  - intros (st1 & c & freqs & dsts & H1 & Hf & Hd & ->).
    unfold run, init. rewrite (bind_ok _ _ _ _ _ H1).
    now apply for_each_channel_ok.
Qed.




Lemma decoders_not_filters (E : env) (o : options) (freqs : list Z)
    (dsts : list block) :
  Forall2 (fun f b => decoder E o f = Ok b) freqs dsts ->
  Forall (fun p => is_channel_block (snd p) = true
                   /\ forall d t f r,
                        snd p <> freq_xlating_fir_filter_ccf d t f r)
         (combine freqs dsts)
  /\ map fst (combine freqs dsts) = freqs
  /\ List.length (combine freqs dsts) = List.length freqs.
Proof.
  induction 1 as [|f b fs bs Hb _ (IH1 & IH2 & IH3)];
    [repeat split; constructor|].
  cbn [combine map fst List.length]. rewrite IH2, IH3.
  repeat split. constructor; [|exact IH1]. cbn [snd].
  apply decoder_block in Hb.
  destruct b; try contradiction; (split; [reflexivity|discriminate]).
Qed.





(** *** Failures *)

Lemma resolve_parameters_value_exn (o : options) (e : exn) :
  resolve_parameters o = Raise e -> value_exn e.
Proof.
  assert (Hcheck : forall r e',
            rbind (check_sample_rate r) (fun _ => Ok r) = Raise e' ->
            value_exn e').
  { intros r e'. destruct (flt r min_sample_rate) eqn:Hlt.
    - rewrite (check_sample_rate_raise r Hlt). intros [= <-]. now destruct r.
    - rewrite (check_sample_rate_ok r Hlt). discriminate. }
  unfold resolve_parameters, resolve_sample_rate,
    truediv_int, float_of_int, truediv.
  destruct (sample_rate o) as [r|]; cbn [rbind].
  - apply Hcheck.
  - destruct (is_finite (of_Z (decim o))); cbn [rbind]; [|now intros [= <-]].
    destruct (is_zero (of_Z (decim o))); cbn [rbind]; [now intros [= <-]|].
    apply Hcheck.
Qed.

Lemma int_of_float_value_exn (x : float) (e : exn) :
  int_of_float x = Raise e -> value_exn e.
Proof. destruct x; cbn; intros [= <-]; exact I. Qed.

Lemma decimation_rate_value_exn (r : float) (e : exn) :
  decimation_rate r = Raise e -> value_exn e.
Proof.
  unfold decimation_rate, truediv, rbind.
  destruct (is_zero min_sample_rate); [now intros [= <-]|].
  apply int_of_float_value_exn.
Qed.

Lemma samples_per_symbol_value_exn (r : float) (d : Z) (e : exn) :
  samples_per_symbol r d = Raise e -> value_exn e.
Proof.
  unfold samples_per_symbol, truediv_int, float_of_int, truediv, rbind.
  destruct (is_finite (of_Z d)); [|now intros [= <-]].
  destruct (is_zero (of_Z d)); [now intros [= <-]|].
  destruct (is_zero symbol_rate); [now intros [= <-]|discriminate].
Qed.

Lemma channel_value_exn (E : env) (o : options) (c : context) (s : string) :
  respects (fun _ => True) value_exn (channel E o c s).
Proof.
  unfold channel.
  apply respects_bind_lift.
  { intros e. unfold parse_ddc. destruct (str_to_num E s) as [x|].
    - apply int_of_float_value_exn.
    - now intros [= <-]. }
  intros f _.
  apply respects_bind; [now apply respects_new|intros b1].
  apply respects_bind; [now apply respects_new|intros b2].
  apply respects_bind_lift.
  { intros e He. destruct (decoder_raises_int16 _ _ _ _ He) as [x ->]. exact I. }
  intros b _.
  apply respects_bind; [now apply respects_new|intros dst].
  now apply respects_emit.
Qed.

(** X5: the constructor leaves with the tuning exit exactly when there
    are no positional arguments, the parameters resolve, no input file is
    named, the USRP2 flag is unset and the USRP refuses the frequency; the
    USRP source has then been created, its daughterboard selected and
    announced, and no gain has been set. *)
Theorem tune_failure (E : env) (o : options) (args : list string)
    (st : state) :
  run E o args = (st, Raise SystemExit_tune)
  <-> args = []
      /\ (exists r, resolve_parameters o = Ok r)
      /\ input_file o = None
      /\ usrp2 o = false
      /\ tune E (rx_subdev_spec o) (freq o) = false
      /\ st = {| next_id := 1;
                 log := [New 0 (usrp_source_c (decim o));
                         SelectedSubdev 0 (rx_subdev_spec o);
                         PrintRxBoard (side_and_name E);
                         Tune 0 (freq o)] |}.
Proof.
  split.
  - unfold run, init. intros H.
    destruct (bind_inv _ _ _ _ _ H) as [(c & st1 & H1 & H2) | (e & H1 & He)].
    { assert (Hloop : respects (fun _ => True) value_exn
                        (for_each (split_comma (ddc o)) (channel E o c)))
        by (apply respects_for_each; intros x; apply channel_value_exn).
      destruct (Hloop _ _ _ H2) as [_ HQ]. destruct (HQ _ eq_refl). }
    injection He as <-. clear H. revert H1.
    unfold front_end, select_source, stage1, stage2.
    unfold bind, lift, ret, raise, emit, new, connect, emit.
    destruct args as [|a args]; [|discriminate].
    cbn [List.length Nat.eqb negb].
    destruct (resolve_parameters o) as [r|e] eqn:Hr.
    2: { intros [= <- ->]. destruct (resolve_parameters_value_exn _ _ Hr). }
    cbn [initial next_id log].
    destruct (input_file o) as [name|] eqn:Hi.
    + destruct (String.eqb name "-"); cbn [next_id log];
        (destruct (nsamples o) as [ns|];
         [destruct (int_of_float ns) as [k|e] eqn:Hk;
          [|intros [= <- ->]; destruct (int_of_float_value_exn _ _ Hk)]|]);
        cbn [next_id log];
        destruct (input_shorts o); cbn [next_id log];
        (destruct (decimation_rate r) as [d|e] eqn:Hd;
         [|intros [= <- ->]; destruct (decimation_rate_value_exn _ _ Hd)]);
        (destruct (samples_per_symbol r d) as [sps|e] eqn:Hs;
         [|intros [= <- ->]; destruct (samples_per_symbol_value_exn _ _ _ Hs)]);
        discriminate.
    + destruct (usrp2 o); [discriminate|].
      cbn [next_id log].
      destruct (tune E (rx_subdev_spec o) (freq o)) eqn:Ht; cbn [negb].
      * cbn [next_id log];
        (destruct (nsamples o) as [ns|];
         [destruct (int_of_float ns) as [k|e] eqn:Hk;
          [|intros [= <- ->]; destruct (int_of_float_value_exn _ _ Hk)]|]);
        cbn [next_id log];
        destruct (input_shorts o); cbn [next_id log];
        (destruct (decimation_rate r) as [d|e] eqn:Hd;
         [|intros [= <- ->]; destruct (decimation_rate_value_exn _ _ Hd)]);
        (destruct (samples_per_symbol r d) as [sps|e] eqn:Hs;
         [|intros [= <- ->]; destruct (samples_per_symbol_value_exn _ _ _ Hs)]);
        discriminate.
      * intros [= <-]. repeat split. now exists r.
  - intros (-> & (r & Hr) & Hi & Hu & Ht & ->).
    unfold run, init, front_end, select_source.
    unfold bind, lift, ret, raise, emit, new, connect, emit.
    cbn [List.length Nat.eqb negb]. rewrite Hr, Hi, Hu. cbn [initial next_id log].
    rewrite Ht. reflexivity.
Qed.

Lemma tune_failure_witness :
  run untuned_env default_options []
  = ({| next_id := 1;
        log := [New 0 (usrp_source_c 32);
                SelectedSubdev 0 (0, 0);
                PrintRxBoard "A: DBSRX";
                Tune 0 (S754_zero false)] |},
     Raise SystemExit_tune).
Proof.
  apply (proj2 (tune_failure untuned_env default_options []
                  {| next_id := 1;
                     log := [New 0 (usrp_source_c 32);
                             SelectedSubdev 0 (0, 0);
                             PrintRxBoard "A: DBSRX";
                             Tune 0 (S754_zero false)] |})).
  split; [reflexivity|]. split; [|repeat split].
  exists (fdiv (of_Z 64000000) (of_Z 32)). vm_compute. reflexivity.
Defined.

(** What follows source selection touches neither the source nor the
    USRP. *)
Lemma after_source_respects (E : env) (o : options) (r : float) (src : nat) :
  respects (fun ev => source_event ev = false) (fun _ => True)
    (bind (stage1 o src) (fun s1 =>
     bind (stage2 o s1) (fun s2 =>
     bind (lift (decimation_rate r)) (fun d =>
     bind (lift (samples_per_symbol r d)) (fun sps =>
     bind (ret {| ctx_sample_rate := r;
                  ctx_stage2 := s2;
                  ctx_filter := channel_filter r;
                  ctx_decimation := d;
                  ctx_sps := sps |})
          (fun c => for_each (split_comma (ddc o)) (channel E o c))))))).
Proof.
  apply respects_bind.
  { unfold stage1. destruct (nsamples o) as [n|]; [|apply respects_ret].
    apply respects_bind_lift; [auto|intros k _].
    apply respects_bind; [now apply respects_new|intros h].
    apply respects_bind; [now apply respects_emit|intros _].
    apply respects_ret. }
  intros s1. apply respects_bind.
  { unfold stage2. destruct (input_shorts o); [|apply respects_ret].
    apply respects_bind; [now apply respects_new|intros h].
    apply respects_bind; [now apply respects_emit|intros _].
    apply respects_ret. }
  intros s2.
  apply respects_bind_lift; [auto|intros d _].
  apply respects_bind_lift; [auto|intros sps _].
  apply respects_bind; [apply respects_ret|intros c].
  apply respects_for_each. intros s. unfold channel.
  apply respects_bind_lift; [auto|intros f _].
  apply respects_bind; [now apply respects_new|intros b1].
  apply respects_bind; [now apply respects_new|intros b2].
  apply respects_bind_lift; [auto|intros b Hb].
  apply decoder_block in Hb.
  apply respects_bind.
  { apply respects_new. intros id. destruct b; try contradiction; reflexivity. }
  intros dst. now apply respects_emit.
Qed.

(** X12: on the USRP path (the parameters resolve, no input file is
    named, the USRP2 flag is unset and tuning succeeds) every run starts by
    creating the USRP source with the decimation factor of the options,
    selecting and announcing the daughterboard, tuning, and setting the
    gain: to the given gain, or to the midpoint of the gain range when none
    is given; nothing after that creates another source or touches the
    USRP. *)
Theorem usrp_source_setup (E : env) (o : options) (r : float)
    (st : state) (res : result unit) :
  resolve_parameters o = Ok r ->
  input_file o = None ->
  usrp2 o = false ->
  tune E (rx_subdev_spec o) (freq o) = true ->
  run E o [] = (st, res) ->
  exists rest,
    log st
    = [New 0 (usrp_source_c (decim o));
       SelectedSubdev 0 (rx_subdev_spec o);
       PrintRxBoard (side_and_name E);
       Tune 0 (freq o);
       SetGain match gain o with
               | Some g => g
               | None => fdiv (fadd (fst (gain_range E)) (snd (gain_range E)))
                           (of_Z 2)
               end]
      ++ rest
    /\ Forall (fun ev => source_event ev = false) rest.
Proof.
  intros Hr Hi Hu Ht Hrun.
  assert (Heq : run E o []
    = bind (select_source E o) (fun src =>
        bind (stage1 o src) (fun s1 =>
        bind (stage2 o s1) (fun s2 =>
        bind (lift (decimation_rate r)) (fun d =>
        bind (lift (samples_per_symbol r d)) (fun sps =>
        bind (ret {| ctx_sample_rate := r;
                     ctx_stage2 := s2;
                     ctx_filter := channel_filter r;
                     ctx_decimation := d;
                     ctx_sps := sps |})
             (fun c => for_each (split_comma (ddc o)) (channel E o c)))))))
        initial).
  { unfold run, init, front_end, bind, lift, ret.
    cbn [List.length Nat.eqb negb]. rewrite Hr.
    destruct (select_source E o initial) as [s0 [src|e]]; [|reflexivity].
    destruct (stage1 o src s0) as [s1' [s1|e]]; [|reflexivity].
    destruct (stage2 o s1 s1') as [s2' [s2|e]]; [|reflexivity].
    destruct (decimation_rate r) as [d|e]; [|reflexivity].
    destruct (samples_per_symbol r d) as [sps|e]; reflexivity. }
  rewrite Heq in Hrun. clear Heq. unfold bind at 1 in Hrun.
  assert (Hsrc : select_source E o initial
    = ({| next_id := 1;
          log := [New 0 (usrp_source_c (decim o));
                  SelectedSubdev 0 (rx_subdev_spec o);
                  PrintRxBoard (side_and_name E);
                  Tune 0 (freq o);
                  SetGain match gain o with
                          | Some g => g
                          | None => fdiv (fadd (fst (gain_range E))
                                            (snd (gain_range E))) (of_Z 2)
                          end] |}, Ok 0%nat)).
  { unfold select_source. rewrite Hi, Hu.
    unfold bind, new, emit, ret. cbn [initial next_id log app].
    rewrite Ht. cbn [negb next_id log app]. now destruct (gain o). }
  rewrite Hsrc in Hrun.
  destruct (after_source_respects E o r 0 _ _ _ Hrun) as [(rest & Hlog & Hrest) _].
  exists rest. split; [exact Hlog|exact Hrest].
Qed.

Lemma usrp_source_setup_witness :
  exists rest,
    log (fst (run bench_env default_options []))
    = [New 0 (usrp_source_c 32);
       SelectedSubdev 0 (0, 0);
       PrintRxBoard "A: DBSRX";
       Tune 0 (S754_zero false);
       SetGain (fdiv (fadd (of_Z 0) (of_Z 20)) (of_Z 2))]
      ++ rest
    /\ Forall (fun ev => source_event ev = false) rest.
Proof.
  refine (usrp_source_setup bench_env default_options
            (fdiv (of_Z 64000000) (of_Z 32))
            (fst (run bench_env default_options []))
            (snd (run bench_env default_options [])) _ _ _ _ _).
  - vm_compute. reflexivity.
  - reflexivity.
  - reflexivity.
  - reflexivity.
  - now destruct (run bench_env default_options []).
Defined.

(** X6: a sample count that is an infinity or a NaN stops the
    constructor at [int(options.nsamples)], with the overflow error for an
    infinity and the value error for a NaN, when the source has already
    been set up. *)
Theorem nonfinite_sample_count (E : env) (o : options) (r n : float)
    (st0 : state) (src : nat) :
  resolve_parameters o = Ok r ->
  select_source E o initial = (st0, Ok src) ->
  nsamples o = Some n ->
  is_finite n = false ->
  run E o []
  = (st0, Raise (match n with
                 | S754_nan => ValueError_nan
                 | _ => OverflowError
                 end)).
Proof.
  intros Hr Hsrc Hn Hfin.
  unfold run, init, front_end, stage1.
  unfold bind, lift, ret. cbn [List.length Nat.eqb negb].
  rewrite Hr, Hsrc, Hn.
  destruct n; try discriminate Hfin; reflexivity.
Qed.

Lemma nonfinite_sample_count_witness :
  run bench_env (with_nsamples stdin_options (Some (S754_infinity false))) []
  = ({| next_id := 1;
        log := [New 0 (file_descriptor_source sizeof_gr_complex 0)] |},
     Raise OverflowError).
Proof.
  refine (nonfinite_sample_count bench_env
            (with_nsamples stdin_options (Some (S754_infinity false)))
            (fdiv (of_Z 64000000) (of_Z 32)) (S754_infinity false)
            {| next_id := 1;
               log := [New 0 (file_descriptor_source sizeof_gr_complex 0)] |}
            0%nat _ _ _ _).
  - vm_compute. reflexivity.
  - reflexivity.
  - reflexivity.
  - reflexivity.
Defined.

(** X7: a supplied sample rate that is not finite: minus infinity is
    below the minimum, and formatting the message of the sample-rate error
    raises the overflow error; plus infinity and NaN pass the check, the
    decimation rate then fails with the overflow error (infinity) or the
    value error (NaN), so no run completes and no channel filter is ever
    created. *)
Theorem nonfinite_sample_rate (E : env) (o : options) (r : float) :
  sample_rate o = Some r ->
  is_finite r = false ->
  (r = S754_infinity true -> resolve_parameters o = Raise OverflowError)
  /\ (r <> S754_infinity true ->
      resolve_parameters o = Ok r
      /\ decimation_rate r
         = Raise (match r with
                  | S754_nan => ValueError_nan
                  | _ => OverflowError
                  end)
      /\ forall args st res,
           run E o args = (st, res) ->
           res <> Ok tt /\ ddc_freqs (log st) = []).
Proof.
  intros Hs Hfin.
  assert (Hres : resolve_parameters o
                 = rbind (check_sample_rate r) (fun _ => Ok r)).
  { unfold resolve_parameters, resolve_sample_rate. now rewrite Hs. }
  split.
  - intros ->. rewrite Hres. reflexivity.
  - intros Hneg.
    assert (Hok : resolve_parameters o = Ok r).
    { rewrite Hres. destruct r as [s|[]| |s m e]; try discriminate Hfin;
        try reflexivity. now elim Hneg. }
    assert (Hd : decimation_rate r
                 = Raise (match r with
                          | S754_nan => ValueError_nan
                          | _ => OverflowError
                          end)).
    { destruct r as [s|s| |s m e]; try discriminate Hfin; reflexivity. }
    split; [exact Hok|]. split; [exact Hd|].
    intros args st res Hrun.
    assert (Hfront : forall st1 c, front_end E o args initial <> (st1, Ok c)).
    { intros st1 c Hfe.
      destruct (front_end_ok_inv _ _ _ _ _ _ Hfe) as (_ & Hr' & Hd' & _).
      rewrite Hok in Hr'. injection Hr' as Hr'. rewrite <- Hr' in Hd'.
      rewrite Hd in Hd'. discriminate Hd'. }
    unfold run, init in Hrun.
    destruct (bind_inv _ _ _ _ _ Hrun) as [(c & st1 & H1 & _) | (e & H1 & ->)].
    + destruct (Hfront _ _ H1).
    + split; [discriminate|].
      destruct (respects_log _ _ _ _ _ _ (front_end_respects E o args) H1)
        as (ev1 & E1 & F1).
      rewrite E1. cbn [log initial app]. now apply ddc_freqs_front.
Qed.

Lemma nonfinite_sample_rate_witness :
  resolve_parameters (with_sample_rate stdin_options (Some S754_nan))
  = Ok S754_nan
  /\ decimation_rate S754_nan = Raise ValueError_nan.
Proof.
  destruct (proj2 (nonfinite_sample_rate bench_env
                     (with_sample_rate stdin_options (Some S754_nan))
                     S754_nan eq_refl eq_refl))
    as (H1 & H2 & _).
  - discriminate.
  - split; [exact H1|exact H2].
Defined.

Lemma split_comma_aux_cons (s : string) :
  forall cur, exists x rest, split_comma_aux cur s = x :: rest.
Proof.
  induction s as [|ch s IH]; intros cur; cbn.
  - now eexists _, _.
  - destruct (Ascii.eqb ch ","); [now eexists _, _|apply IH].
Qed.

Lemma respects_for_each_in {A} P Q (body : A -> M unit) (l : list A) :
  (forall a, In a l -> respects P Q (body a)) -> respects P Q (for_each l body).
Proof.
  induction l as [|a l IH]; intros H; cbn [for_each]; [apply respects_ret|].
  apply respects_bind; [apply H; now left|intros _].
  apply IH. intros b Hb. apply H. now right.
Qed.

(** Events of the loop pass on the entry [s]: the channel filter is
    centred on the parsed value of [s]. *)
Lemma channel_centre (E : env) (o : options) (c : context) (s : string) :
  respects
    (fun ev => match ev with
               | New _ (freq_xlating_fir_filter_ccf _ _ f _) =>
                   parse_ddc E s = Ok f
               | _ => True
               end)
    (fun _ => True) (channel E o c s).
Proof.
  unfold channel.
  apply respects_bind_lift; [auto|intros f Hf].
  apply respects_bind; [apply respects_new; intros id; exact Hf|intros b1].
  apply respects_bind; [now apply respects_new|intros b2].
  apply respects_bind_lift; [auto|intros b Hb].
  apply decoder_block in Hb.
  apply respects_bind.
  { apply respects_new. intros id. destruct b; try contradiction; exact I. }
  intros dst. now apply respects_emit.
Qed.

(** X8: with the dump flag unset and a LAP string that the hexadecimal
    parser rejects, the error is raised in the first pass of the channel
    loop, when the front end has completed and the filter and the
    demodulator of the first branch have been created; nothing of that
    branch is connected. *)
Theorem malformed_lap_timing (E : env) (o : options) (args : list string)
    (l : string) (st1 : state) (c : context) (f : Z) :
  dump o = false -> lap o = Some l -> int16 E l = None ->
  front_end E o args initial = (st1, Ok c) ->
  parse_ddc E (hd EmptyString (split_comma (ddc o))) = Ok f ->
  run E o args
  = ({| next_id := 2 + next_id st1;
        log := log st1
               ++ [New (next_id st1)
                     (freq_xlating_fir_filter_ccf (ctx_decimation c)
                        (ctx_filter c) f (ctx_sample_rate c));
                   New (S (next_id st1)) (gmsk_demod f_0_32 (ctx_sps c))] |},
     Raise (ValueError_int16 l)).
Proof.
  intros Hdump Hlap Hl Hfe Hp.
  unfold run, init. rewrite (bind_ok _ _ _ _ _ Hfe).
  unfold split_comma in *.
  destruct (split_comma_aux_cons (ddc o) (fun t => t)) as (x & rest & Hx).
  rewrite Hx in *. cbn [hd] in Hp. cbn [for_each]. unfold bind at 1.
  rewrite (channel_run E o c x st1 f Hp).
  assert (Hd : decoder E o f = Raise (ValueError_int16 l)).
  { unfold decoder, parse_int16. rewrite Hdump, Hlap, Hl.
    now destruct (uap o). }
  now rewrite Hd.
Qed.

Lemma malformed_lap_timing_witness :
  run bench_env (with_lap_uap stdin_options (Some "zz"%string) None) []
  = ({| next_id := 3;
        log := [New 0 (file_descriptor_source sizeof_gr_complex 0);
                New 1 (freq_xlating_fir_filter_ccf 1
                         (channel_filter (of_Z 2000000)) 0 (of_Z 2000000));
                New 2 (gmsk_demod f_0_32 (of_Z 2))] |},
     Raise (ValueError_int16 "zz")).
Proof.
  refine (malformed_lap_timing bench_env
            (with_lap_uap stdin_options (Some "zz"%string) None) []
            "zz"%string
            {| next_id := 1;
               log := [New 0 (file_descriptor_source sizeof_gr_complex 0)] |}
            {| ctx_sample_rate := of_Z 2000000;
               ctx_stage2 := 0;
               ctx_filter := channel_filter (of_Z 2000000);
               ctx_decimation := 1;
               ctx_sps := of_Z 2 |}
            0 _ _ _ _ _).
  - reflexivity.
  - reflexivity.
  - reflexivity.
  - vm_compute. reflexivity.
  - vm_compute. reflexivity.
Defined.

(** X9: in every run, completed or not, each channel filter created
    carries the resolved sample rate, the decimation rate computed from it
    and the low-pass taps designed for it, and is centred on the parsed
    value of an entry of the frequency list. *)
Theorem channel_filters_uniform (E : env) (o : options) (args : list string)
    (st : state) (res : result unit) (id : nat) (d : Z) (t : taps) (f : Z)
    (rate : float) :
  run E o args = (st, res) ->
  In (New id (freq_xlating_fir_filter_ccf d t f rate)) (log st) ->
  resolve_parameters o = Ok rate
  /\ decimation_rate rate = Ok d
  /\ t = low_pass f_1 rate f_500e3 f_500e3 WIN_HANN
  /\ exists s, In s (split_comma (ddc o)) /\ parse_ddc E s = Ok f.
Proof.
  intros Hrun Hin. unfold run, init in Hrun.
  destruct (bind_inv _ _ _ _ _ Hrun) as [(c & st1 & H1 & H2) | (e & H1 & _)].
  - destruct (respects_log _ _ _ _ _ _ (front_end_respects E o args) H1)
      as (ev1 & E1 & F1).
    assert (Hloop : respects
              (fun ev => conforms c ev
                         /\ match ev with
                            | New _ (freq_xlating_fir_filter_ccf _ _ f' _) =>
                                exists s, In s (split_comma (ddc o))
                                          /\ parse_ddc E s = Ok f'
                            | _ => True
                            end)
              (fun _ => True)
              (for_each (split_comma (ddc o)) (channel E o c))).
    { apply respects_for_each_in. intros s Hs st2 st3 r3 H3.
      destruct (channel_respects E o c s _ _ _ H3) as [(evs & E3 & F3) _].
      destruct (channel_centre E o c s _ _ _ H3) as [(evs' & E3' & F3') _].
      rewrite E3 in E3'. apply app_inv_head in E3'. subst evs'.
      split; [|auto]. exists evs. split; [exact E3|].
      rewrite Forall_forall in *. intros ev Hev.
      split; [now apply F3|].
      specialize (F3' ev Hev). destruct ev as [|i b| | | | |]; auto.
      destruct b; auto. now exists s. }
    destruct (respects_log _ _ _ _ _ _ Hloop H2) as (ev2 & E2 & F2).
    rewrite E2, E1 in Hin. cbn [log initial app] in Hin.
    apply in_app_or in Hin. destruct Hin as [Hin|Hin].
    + rewrite Forall_forall in F1. specialize (F1 _ Hin). discriminate F1.
    + rewrite Forall_forall in F2. destruct (F2 _ Hin) as [Hc Hs].
      cbn in Hc. destruct Hc as (-> & -> & ->).
      destruct (front_end_ok_inv _ _ _ _ _ _ H1) as (_ & Hr & Hd & _ & Hf & _).
      repeat split; try assumption.
  - destruct (respects_log _ _ _ _ _ _ (front_end_respects E o args) H1)
      as (ev1 & E1 & F1).
    rewrite E1 in Hin. cbn [log initial app] in Hin.
    rewrite Forall_forall in F1. specialize (F1 _ Hin). discriminate F1.
Qed.

Lemma channel_filters_uniform_witness :
  resolve_parameters (with_ddc stdin_options "0,1M") = Ok (of_Z 2000000)
  /\ decimation_rate (of_Z 2000000) = Ok 1.
Proof.
  destruct (channel_filters_uniform bench_env (with_ddc stdin_options "0,1M") []
              (fst (run bench_env (with_ddc stdin_options "0,1M") []))
              (Ok tt) 4%nat 1
              (channel_filter (of_Z 2000000)) 1000000 (of_Z 2000000))
    as (H1 & H2 & _).
  - vm_compute. reflexivity.
  - vm_compute. right. right. right. right. right. left. reflexivity.
  - split; [exact H1|exact H2].
Defined.

(** X10: with a supplied sample rate and a named input (a file or
    standard input), the decimation factor and the USRP2 flag have no
    effect on the run. *)
Theorem file_mode_ignores_decimation (E : env) (o : options) (r : float)
    (name : string) (u : bool) (d : Z) (args : list string) :
  sample_rate o = Some r ->
  input_file o = Some name ->
  run E (with_usrp2_decim o u d) args = run E o args.
Proof.
  intros Hs Hi. unfold run, init.
  change (ddc (with_usrp2_decim o u d)) with (ddc o).
  assert (Hfe : front_end E (with_usrp2_decim o u d) args = front_end E o args).
  { unfold front_end, resolve_parameters, resolve_sample_rate, select_source.
    cbn [sample_rate input_file with_usrp2_decim]. rewrite Hs, Hi. reflexivity. }
  rewrite Hfe. reflexivity.
Qed.

Lemma file_mode_ignores_decimation_witness :
  run bench_env
    (with_usrp2_decim (with_sample_rate stdin_options (Some (of_Z 4000000)))
       true 0) []
  = run bench_env (with_sample_rate stdin_options (Some (of_Z 4000000))) [].
Proof.
  refine (file_mode_ignores_decimation bench_env
            (with_sample_rate stdin_options (Some (of_Z 4000000)))
            (of_Z 4000000) "-"%string true 0 [] _ _); reflexivity.
Defined.

(** X11: the entries the channel loop iterates over: joined with commas
    they give back the option string, none of them holds a comma, and there
    is one more of them than the string has commas. *)
Theorem split_comma_round_trip (s : string) :
  join_comma (split_comma s) = s
  /\ Forall (fun f => count_commas f = O) (split_comma s)
  /\ List.length (split_comma s) = S (count_commas s).
Proof.
  destruct (split_comma_aux_spec s (fun t => t) EmptyString) as (H1 & H2 & H3);
    try reflexivity.
  repeat split; assumption.
Qed.

(** *** The demodulators of a completed run *)

Lemma demods_app (l1 l2 : list event) :
  demods (l1 ++ l2) = demods l1 ++ demods l2.
Proof.
  induction l1 as [|ev l1 IH]; [reflexivity|].
  cbn. destruct ev as [|id b| | | | |]; try exact IH.
  destruct b; try exact IH. cbn. now rewrite IH.
Qed.

Lemma demods_front (l : list event) :
  Forall front_event l -> demods l = [].
Proof.
  induction 1 as [|ev l Hev _ IH]; [reflexivity|].
  cbn. destruct ev as [|id b| | | | |]; try exact IH.
  destruct b; try exact IH. cbn in Hev. discriminate.
Qed.

Lemma demods_branches (E : env) (o : options) (c : context) :
  forall (freqs : list Z) (dsts : list block) (id : nat),
    Forall2 (fun f b => decoder E o f = Ok b) freqs dsts ->
    demods (branches_events c id (combine freqs dsts))
    = repeat (f_0_32, ctx_sps c) (List.length freqs).
Proof.
  intros freqs dsts id H. revert id.
  induction H as [|f b fs bs Hb _ IH]; intros id; [reflexivity|].
  cbn [combine branches_events List.length repeat].
  rewrite demods_app, IH.
  apply decoder_block in Hb.
  destruct b; try contradiction; reflexivity.
Qed.

(** C5: for a binary64 sample rate at or above the minimum and the
    decimation rate computed from it, the samples-per-symbol value is the
    float quotient (rate / decimation rate) / 1,000,000; every demodulator
    a run creates receives exactly this value; a completed run has created
    one demodulator per entry of the frequency list, one more than the
    list has commas, each with this value, and each in a branch of its own
    between the filter and the decoder of that branch; at 2,000,000 with
    decimation rate 1 the value is 2.0. *)
Theorem samples_per_symbol_formula (r : float) (d : Z) :
  is_float r = true -> fle min_sample_rate r = true ->
  decimation_rate r = Ok d ->
  samples_per_symbol r d = Ok (fdiv (fdiv r (of_Z d)) (of_Z 1000000))
  /\ (forall E o args st res id mu sps,
      resolve_parameters o = Ok r ->
      run E o args = (st, res) ->
      In (New id (gmsk_demod mu sps)) (log st) ->
      sps = fdiv (fdiv r (of_Z d)) (of_Z 1000000))
  /\ (forall E o args st,
      resolve_parameters o = Ok r ->
      run E o args = (st, Ok tt) ->
      demods (log st)
      = repeat (f_0_32, fdiv (fdiv r (of_Z d)) (of_Z 1000000))
          (S (count_commas (ddc o)))
      /\ exists st1 c branches,
           ctx_sps c = fdiv (fdiv r (of_Z d)) (of_Z 1000000)
           /\ List.length branches = S (count_commas (ddc o))
           /\ log st
              = log st1 ++ branches_events c (next_id st1) branches)
  /\ samples_per_symbol (of_Z 2000000) 1 = Ok (of_Z 2).
Proof.
  intros Hv Hle Hd. rewrite min_sample_rate_value in Hle.
  assert (Hf : is_finite r = true).
  { destruct r as [s|s| |s m e]; try reflexivity; discriminate. }
  destruct (decimation_rate_valid r Hv Hf Hle) as (d' & Hd' & _ & Hb).
  rewrite Hd in Hd'. injection Hd' as <-.
  assert (Hs : samples_per_symbol r d
               = Ok (fdiv (fdiv r (of_Z d)) (of_Z 1000000))).
  { rewrite (samples_per_symbol_valid r d Hb). reflexivity. }
  assert (Hctx : forall E o args st1 c,
            resolve_parameters o = Ok r ->
            front_end E o args initial = (st1, Ok c) ->
            ctx_sps c = fdiv (fdiv r (of_Z d)) (of_Z 1000000)).
  { intros E o args st1 c Hr Hfe.
    destruct (front_end_ok_inv _ _ _ _ _ _ Hfe) as (_ & Hr' & Hd' & Hs' & _).
    rewrite Hr in Hr'. injection Hr' as Hr'. rewrite <- Hr' in Hd', Hs'.
    rewrite Hd in Hd'. injection Hd' as Hd'. rewrite <- Hd' in Hs'.
    rewrite Hs in Hs'. now injection Hs'. }
  split; [exact Hs|split; [|split; [|vm_compute; reflexivity]]].
  - intros E o args st res id mu sps Hr Hrun Hin.
    destruct (run_log_conforms E o args st res Hrun)
      as [Hfront | (c & st1 & Hfe & Hconf)].
    + rewrite Forall_forall in Hfront. specialize (Hfront _ Hin).
      cbn in Hfront. discriminate.
    + rewrite Forall_forall in Hconf. specialize (Hconf _ Hin).
      cbn in Hconf. destruct Hconf as [_ ->].
      exact (Hctx E o args st1 c Hr Hfe).
  - intros E o args st Hr Hrun.
    destruct (run_ok_inv E o args st Hrun)
      as (st1 & c & freqs & dsts & Hfe & Hp & Hdec & ->).
    assert (Hlen : List.length freqs = S (count_commas (ddc o))).
    { rewrite <- split_comma_length. symmetry. eapply Forall2_length.
      exact Hp. }
    pose proof (Hctx E o args st1 c Hr Hfe) as Hsps.
    cbn [log]. split.
    + destruct (respects_log _ _ _ _ _ _ (front_end_respects E o args) Hfe)
        as (ev1 & E1 & F1).
      rewrite demods_app, E1. cbn [log initial app].
      rewrite (demods_front _ F1), (demods_branches E o c freqs dsts _ Hdec).
      rewrite Hsps, Hlen. reflexivity.
    + exists st1, c, (combine freqs dsts).
      split; [exact Hsps|]. split; [|reflexivity].
      destruct (decoders_not_filters E o freqs dsts Hdec) as (_ & _ & Hl).
      now rewrite Hl.
Qed.

Lemma samples_per_symbol_formula_witness :
  decimation_rate (of_Z 5000000) = Ok 2
  /\ demods
       (log (fst (run bench_env
                    (with_ddc
                       (with_sample_rate stdin_options (Some (of_Z 5000000)))
                       "0,1M") [])))
     = [(f_0_32, fdiv (fdiv (of_Z 5000000) (of_Z 2)) (of_Z 1000000));
        (f_0_32, fdiv (fdiv (of_Z 5000000) (of_Z 2)) (of_Z 1000000))].
Proof.
  split; [vm_compute; reflexivity|].
  refine (proj1 (proj1 (proj2 (proj2
    (samples_per_symbol_formula (of_Z 5000000) 2 _ _ _)))
    bench_env
    (with_ddc (with_sample_rate stdin_options (Some (of_Z 5000000))) "0,1M")
    []
    (fst (run bench_env
            (with_ddc (with_sample_rate stdin_options (Some (of_Z 5000000)))
               "0,1M") []))
    _ _)); vm_compute; reflexivity.
Defined.
